(** * CV preview component: language detection, normalisation and layouts

    A shallow embedding of [frontend/src/components/CVPreview.js].

    The component is a JavaScript function over loosely typed data, so the
    first part of this file fixes the fragment of JavaScript it runs on:
    strings as sequences of UTF-16 code units, a universe of JSON-like
    values, and the few built-in operations the component calls, each with
    the exception it raises when the receiver has the wrong type.  The second
    part transcribes the component, function by function.  The last part
    states and proves the properties. *)

From Stdlib Require Import List String Ascii ZArith NArith Bool Lia DecimalString.
Import ListNotations.
Set Warnings "-register-all".

(* ================================================================== *)
(** * Strings *)
(* ================================================================== *)

(** A JavaScript string is a sequence of UTF-16 code units. *)
Definition jsstring := list N.

Open Scope N_scope.

Fixpoint bytes_of (s : string) : list N :=
  match s with
  | EmptyString => []
  | String c r => N_of_ascii c :: bytes_of r
  end.

(** Code point to UTF-16: one unit in the basic plane, a surrogate pair
    above it. *)
Definition utf16_of_cp (cp : N) : jsstring :=
  if cp <? 65536 then [cp]
  else [55296 + (cp - 65536) / 1024; 56320 + (cp - 65536) mod 1024].

(** UTF-8 decoding of the bytes of a literal of this file; [pending] is the
    code point read so far and [need] the number of continuation bytes
    still expected. *)
Fixpoint utf8_go (pending : N) (need : nat) (bs : list N) : jsstring :=
  match bs with
  | [] => []
  | b :: r =>
      match need with
      | O =>
          if b <? 128 then b :: utf8_go 0 0 r
          else if b <? 224 then utf8_go (b - 192) 1 r
          else if b <? 240 then utf8_go (b - 224) 2 r
          else utf8_go (b - 240) 3 r
      | S O => utf16_of_cp (pending * 64 + (b - 128)) ++ utf8_go 0 0 r
      | S k => utf8_go (pending * 64 + (b - 128)) k r
      end
  end.

(** [js "..."] is the JavaScript string written as that source literal. *)
Definition js (s : string) : jsstring := utf8_go 0 0 (bytes_of s).

Fixpoint str_eqb (a b : jsstring) : bool :=
  match a, b with
  | [], [] => true
  | x :: a', y :: b' => (x =? y) && str_eqb a' b'
  | _, _ => false
  end.

(** [s.startsWith(p)] *)
Fixpoint startsWith (s p : jsstring) : bool :=
  match p, s with
  | [], _ => true
  | x :: p', y :: s' => (x =? y) && startsWith s' p'
  | _ :: _, [] => false
  end.

(** [s.includes(w)] *)
Fixpoint includes (s w : jsstring) : bool :=
  startsWith s w ||
  match s with
  | [] => false
  | _ :: s' => includes s' w
  end.

(** [s.substring(0, n)] *)
Definition substring0 (n : nat) (s : jsstring) : jsstring := firstn n s.

(** [x.slice(a, b)] for constants [0 <= a <= b], on strings and arrays. *)
Definition slice {A : Type} (a b : nat) (l : list A) : list A :=
  skipn a (firstn b l).

(** [s.toLowerCase()], unit by unit.  The engine's case table is reproduced
    for Basic Latin and Latin-1, and for the three units outside them whose
    lowercase form contains a Latin letter (U+0130, the Kelvin sign and the
    Angstrom sign); every other unit is left as it is.  The marker words of
    the language detector are written with [a]-[z] and [U+00E4] only, so a
    unit this table leaves alone never contributes to a marker, whatever the
    engine maps it to. *)
Definition lower_unit (c : N) : jsstring :=
  if (65 <=? c) && (c <=? 90) then [c + 32]
  else if (192 <=? c) && (c <=? 222) && negb (c =? 215) then [c + 32]
  else if c =? 304 then [105; 775]
  else if c =? 8490 then [107]
  else if c =? 8491 then [229]
  else [c].

Definition toLowerCase (s : jsstring) : jsstring := flat_map lower_unit s.

(** The class [\s] of regular expressions (white space and line
    terminators). *)
Definition is_space (c : N) : bool :=
  ((9 <=? c) && (c <=? 13)) || (c =? 32) || (c =? 160) || (c =? 5760)
  || ((8192 <=? c) && (c <=? 8202)) || (c =? 8232) || (c =? 8233)
  || (c =? 8239) || (c =? 8287) || (c =? 12288) || (c =? 65279).

Fixpoint drop_spaces (s : jsstring) : jsstring :=
  match s with
  | c :: r => if is_space c then drop_spaces r else s
  | [] => []
  end.

(** [s.split('\n')] *)
Fixpoint split_lines (s : jsstring) : list jsstring :=
  match s with
  | [] => [[]]
  | c :: r =>
      if c =? 10 then [] :: split_lines r
      else match split_lines r with
           | h :: t => (c :: h) :: t
           | [] => [[c]]
           end
  end.

(** [s.replace(pat, rep)] with a string pattern: the first occurrence only.
    ([rep] has no [$] in this program.) *)
Fixpoint replace_first (pat rep s : jsstring) : jsstring :=
  if startsWith s pat then rep ++ skipn (List.length pat) s
  else match s with
       | [] => []
       | c :: r => c :: replace_first pat rep r
       end.

(** [s.replace(/^\//, '')] *)
Definition strip_leading_slash (s : jsstring) : jsstring :=
  match s with
  | c :: r => if c =? 47 then r else s
  | [] => []
  end.

(** [s.replace(/^[•\-]\s*/, '')]: a leading bullet (U+2022) or hyphen and the
    white space after it. *)
Definition strip_bullet (s : jsstring) : jsstring :=
  match s with
  | c :: r => if (c =? 8226) || (c =? 45) then drop_spaces r else s
  | [] => []
  end.

(** Decimal form of an integer, as [String(n)] gives it. *)
Definition decimal (z : Z) : jsstring :=
  bytes_of (NilZero.string_of_int (Z.to_int z)).

(* ================================================================== *)
(** * Values and outcomes *)
(* ================================================================== *)

(** The values a CV document and a theme are made of.  Numbers are the
    integers (sizes, list lengths, years), and they print in positional
    notation, as the engine prints the integers it represents exactly below
    10^21; objects carry their own properties in the order the engine
    enumerates them. *)
Inductive value : Type :=
| VUndef
| VNull
| VBool (b : bool)
| VNum (z : Z)
| VStr (s : jsstring)
| VArr (items : list value)
| VObj (props : list (jsstring * value)).

(** [TypeError] is the engine's; [InvalidChild] is the error React raises
    when it is given a plain object to render as a child. *)
Inductive exn : Type := TypeError | InvalidChild.

(** What evaluating an expression comes to: a value, an exception, or
    [Unmodelled] where the expression leaves the fragment of the language
    described here (a member of a built-in prototype read as data, a string
    compared as a number). *)
Inductive result (A : Type) : Type :=
| Ok (a : A)
| Throw (e : exn)
| Unmodelled.

Arguments Ok {A} a.
Arguments Throw {A} e.
Arguments Unmodelled {A}.

Definition bind {A B : Type} (r : result A) (f : A -> result B) : result B :=
  match r with
  | Ok a => f a
  | Throw e => Throw e
  | Unmodelled => Unmodelled
  end.

Declare Scope js_scope.
Delimit Scope js_scope with jsm.
Notation "'let*' x ':=' r 'in' k" := (bind r (fun x => k))
  (at level 10, x name, r at level 100, k at level 200) : js_scope.
Open Scope js_scope.

Fixpoint mapM {A B : Type} (f : A -> result B) (l : list A) : result (list B) :=
  match l with
  | [] => Ok []
  | x :: r => let* y := f x in let* ys := mapM f r in Ok (y :: ys)
  end.

Fixpoint filterM {A : Type} (f : A -> result bool) (l : list A) : result (list A) :=
  match l with
  | [] => Ok []
  | x :: r =>
      let* keep := f x in
      let* ys := filterM f r in
      Ok (if keep then x :: ys else ys)
  end.

(** Truthiness, [Boolean(v)]. *)
Definition truthy (v : value) : bool :=
  match v with
  | VUndef | VNull => false
  | VBool b => b
  | VNum z => negb (z =? 0)%Z
  | VStr s => match s with [] => false | _ => true end
  | VArr _ | VObj _ => true
  end.

(** [a || b] and [a && b] on values already evaluated (the right operand is
    a property read or a literal wherever this file uses them on values). *)
Definition or_else (a b : value) : value := if truthy a then a else b.
Definition and_then (a b : value) : value := if truthy a then b else a.

Definition is_string (v : value) : bool :=
  match v with VStr _ => true | _ => false end.

(** [Array.isArray(v)] *)
Definition isArray (v : value) : bool :=
  match v with VArr _ => true | _ => false end.

(** [typeof v === 'object'] *)
Definition typeof_object (v : value) : bool :=
  match v with VNull | VArr _ | VObj _ => true | _ => false end.

(** [v === 'literal'] *)
Definition is_str (v : value) (lit : jsstring) : bool :=
  match v with VStr s => str_eqb s lit | _ => false end.

Fixpoint lookup (k : jsstring) (props : list (jsstring * value)) : option value :=
  match props with
  | [] => None
  | (k', v) :: r => if str_eqb k k' then Some v else lookup k r
  end.

Definition has_own (k : jsstring) (props : list (jsstring * value)) : bool :=
  match lookup k props with Some _ => true | None => false end.

Definition mem_str (k : jsstring) (l : list jsstring) : bool :=
  existsb (str_eqb k) l.

(** Members of the built-in prototypes.  Reading one of these names from a
    value that has no own property of that name gives a function, which the
    universe of values above has not. *)
Definition Object_prototype : list jsstring :=
  map js ["constructor"; "hasOwnProperty"; "isPrototypeOf";
          "propertyIsEnumerable"; "toLocaleString"; "toString"; "valueOf";
          "__proto__"; "__defineGetter__"; "__defineSetter__";
          "__lookupGetter__"; "__lookupSetter__"]%string.

Definition String_prototype : list jsstring :=
  map js ["anchor"; "at"; "big"; "blink"; "bold"; "charAt"; "charCodeAt";
          "codePointAt"; "concat"; "endsWith"; "fixed"; "fontcolor";
          "fontsize"; "includes"; "indexOf"; "isWellFormed"; "italics";
          "lastIndexOf"; "link"; "localeCompare"; "match"; "matchAll";
          "normalize"; "padEnd"; "padStart"; "repeat"; "replace";
          "replaceAll"; "search"; "slice"; "small"; "split"; "startsWith";
          "strike"; "sub"; "substr"; "substring"; "sup";
          "toLocaleLowerCase"; "toLocaleUpperCase"; "toLowerCase";
          "toUpperCase"; "toWellFormed"; "trim"; "trimEnd"; "trimLeft";
          "trimRight"; "trimStart"]%string.

Definition Array_prototype : list jsstring :=
  map js ["at"; "concat"; "copyWithin"; "entries"; "every"; "fill"; "filter";
          "find"; "findIndex"; "findLast"; "findLastIndex"; "flat";
          "flatMap"; "forEach"; "includes"; "indexOf"; "join"; "keys";
          "lastIndexOf"; "map"; "pop"; "push"; "reduce"; "reduceRight";
          "reverse"; "shift"; "slice"; "some"; "sort"; "splice";
          "toReversed"; "toSorted"; "toSpliced"; "unshift"; "values";
          "with"]%string.

Definition Number_prototype : list jsstring :=
  map js ["toExponential"; "toFixed"; "toPrecision"]%string.

(** An array index written as a property name. *)
Definition is_index (k : jsstring) : bool :=
  match k with
  | [] => false
  | _ => forallb (fun c => (48 <=? c) && (c <=? 57)) k
  end.

(** Property read [v.k] (or [v[k]]). *)
Definition get (v : value) (k : jsstring) : result value :=
  match v with
  | VUndef | VNull => Throw TypeError
  | VObj props =>
      match lookup k props with
      | Some x => Ok x
      | None => if mem_str k Object_prototype then Unmodelled else Ok VUndef
      end
  | VArr items =>
      if str_eqb k (js "length") then Ok (VNum (Z.of_nat (List.length items)))
      else if is_index k || mem_str k Array_prototype || mem_str k Object_prototype
           then Unmodelled else Ok VUndef
  | VStr s =>
      if str_eqb k (js "length") then Ok (VNum (Z.of_nat (List.length s)))
      else if is_index k || mem_str k String_prototype || mem_str k Object_prototype
           then Unmodelled else Ok VUndef
  | VNum _ =>
      if mem_str k Number_prototype || mem_str k Object_prototype
      then Unmodelled else Ok VUndef
  | VBool _ =>
      if mem_str k Object_prototype then Unmodelled else Ok VUndef
  end.

(** Optional read [v?.k]. *)
Definition get_opt (v : value) (k : jsstring) : result value :=
  match v with
  | VUndef | VNull => Ok VUndef
  | _ => get v k
  end.

(** Conversion to string, as string concatenation, template literals and
    [join] perform it.  An object converts through the inherited
    [toString], to "[object Object]"; an own property of that name (never a
    function here) leaves no way to convert and raises. *)
Fixpoint to_string (v : value) : result jsstring :=
  match v with
  | VUndef => Ok (js "undefined")
  | VNull => Ok (js "null")
  | VBool true => Ok (js "true")
  | VBool false => Ok (js "false")
  | VNum z => Ok (decimal z)
  | VStr s => Ok s
  | VArr items =>
      (fix go (l : list value) : result jsstring :=
         match l with
         | [] => Ok []
         | x :: r =>
             let* h := match x with
                       | VUndef | VNull => Ok []
                       | _ => to_string x
                       end in
             match r with
             | [] => Ok h
             | _ => let* t := go r in Ok (h ++ js "," ++ t)
             end
         end) items
  | VObj props =>
      if has_own (js "toString") props then Throw TypeError
      else Ok (js "[object Object]")
  end.

(** [items.join(sep)] *)
Fixpoint join (sep : jsstring) (items : list value) : result jsstring :=
  match items with
  | [] => Ok []
  | x :: r =>
      let* h := match x with
                | VUndef | VNull => Ok []
                | _ => to_string x
                end in
      match r with
      | [] => Ok h
      | _ => let* t := join sep r in Ok (h ++ sep ++ t)
      end
  end.

(** [v > 0] *)
Definition gt0 (v : value) : result bool :=
  match v with
  | VNum z => Ok (0 <? z)%Z
  | VBool b => Ok b
  | VUndef | VNull => Ok false
  | VObj props =>
      if has_own (js "toString") props then Throw TypeError else Ok false
  | VStr _ | VArr _ => Unmodelled
  end.

(** Method calls: the receiver must be of the type that has the method. *)
Definition as_string (v : value) : result jsstring :=
  match v with VStr s => Ok s | _ => Throw TypeError end.

Definition as_array (v : value) : result (list value) :=
  match v with VArr l => Ok l | _ => Throw TypeError end.

(** [x.slice(a, b)]: strings and arrays have the method. *)
Definition slice_val (a b : nat) (v : value) : result value :=
  match v with
  | VStr s => Ok (VStr (slice a b s))
  | VArr l => Ok (VArr (slice a b l))
  | _ => Throw TypeError
  end.

(** Property read with a name written as a literal of this file. *)
Definition prop (v : value) (k : string) : result value := get v (js k).

(** [a || v.k]: the property is read only when [a] is falsy. *)
Definition or_prop (a v : value) (k : string) : result value :=
  if truthy a then Ok a else prop v k.

(** [a || v?.k] *)
Definition or_prop_opt (a v : value) (k : string) : result value :=
  if truthy a then Ok a else get_opt v (js k).

(** [parseInt(s, 16)]; [None] is [NaN]. *)
Definition hex_digit (c : N) : option Z :=
  if (48 <=? c) && (c <=? 57) then Some (Z.of_N (c - 48))
  else if (97 <=? c) && (c <=? 102) then Some (Z.of_N (c - 87))
  else if (65 <=? c) && (c <=? 70) then Some (Z.of_N (c - 55))
  else None.

Fixpoint hex_prefix (acc : option Z) (s : jsstring) : option Z :=
  match s with
  | [] => acc
  | c :: r =>
      match hex_digit c with
      | Some d =>
          hex_prefix (Some (match acc with Some a => a * 16 + d | None => d end)%Z) r
      | None => acc
      end
  end.

Definition parseInt16 (s : jsstring) : option Z :=
  let s := drop_spaces s in
  let '(neg, s) :=
    match s with
    | c :: r => if c =? 45 then (true, r) else if c =? 43 then (false, r) else (false, s)
    | [] => (false, s)
    end in
  let s :=
    match s with
    | c :: x :: r => if (c =? 48) && ((x =? 120) || (x =? 88)) then r else s
    | _ => s
    end in
  match hex_prefix None s with
  | Some n => Some (if neg then - n else n)%Z
  | None => None
  end.

Definition show_int (n : option Z) : jsstring :=
  match n with Some z => decimal z | None => js "NaN" end.

(* ================================================================== *)
(** * The element tree *)
(* ================================================================== *)

(** What the component returns: React elements.  Inline [style] objects and
    [key]s are left out, so a host element is its tag and its children; the
    profile image keeps its source, size and corner radius.  A child
    written [{expr}] is the value of the expression;
    [<SectionTitle .../>] is an element of that component with its five
    props, expanded by [SectionTitle] below.

    What is evaluated to build a style object is kept where it can fail
    (the template literals over the primary colour in the executive and
    the minimal layout).  The values of a style that are not constants of
    the component are the primary colour and the two colours computed from
    it, the photo size and radius, and [theme.fontFamily]; React converts
    them to strings when it writes the style, which this tree does not
    show.  The statements about what React makes of a tree are therefore
    stated for a primary colour that is a string and a font family that is
    a scalar ([theme_ok] below). *)
Inductive node : Type :=
| NVal (v : value)
| NEl (tag : string) (kids : list node)
| NImg (src size : value) (radius : jsstring)
| NFrag (kids : list node)
| NArr (items : list node)
| NTitle (label color border style icon : value).

(** Literal JSX text. *)
Definition T (s : string) : node := NVal (VStr (js s)).

Definition Str (s : string) : value := VStr (js s).

(** [{c && <element/>}] *)
Definition guard (c : value) (n : node) : node :=
  if truthy c then n else NVal c.

Definition guardM (c : value) (n : result node) : result node :=
  if truthy c then n else Ok (NVal c).

(** [{coll.length > 0 && <element/>}] *)
Definition when_nonempty (coll : value) (n : result node) : result node :=
  let* len := prop coll "length" in
  let* b := gt0 len in
  if b then n else Ok (NVal (VBool false)).

(** [coll.map((x, i) => ...)], the callback given the index too. *)
Fixpoint mapMi {A B : Type} (f : nat -> A -> result B) (i : nat) (l : list A)
  : result (list B) :=
  match l with
  | [] => Ok []
  | x :: r => let* y := f i x in let* ys := mapMi f (S i) r in Ok (y :: ys)
  end.

Definition map_nodes (coll : value) (f : value -> result node) : result node :=
  let* items := as_array coll in
  let* ns := mapM f items in
  Ok (NArr ns).

(* ================================================================== *)
(** * The component *)
(* ================================================================== *)

(** The two label sets.  ([L] in the component is one of them.) *)
Module Labels.
Record t : Type := {
  profile : jsstring; experience : jsstring; education : jsstring;
  skills : jsstring; languages : jsstring; interests : jsstring;
  projects : jsstring; certifications : jsstring
}.
End Labels.

Definition LABELS_EN : Labels.t := {|
  Labels.profile := js "Profile"; Labels.experience := js "Experience";
  Labels.education := js "Education"; Labels.skills := js "Skills";
  Labels.languages := js "Languages"; Labels.interests := js "Interests";
  Labels.projects := js "Projects"; Labels.certifications := js "Certifications"
|}.

Definition LABELS_DE : Labels.t := {|
  Labels.profile := js "Profil"; Labels.experience := js "Berufserfahrung";
  Labels.education := js "Bildung"; Labels.skills := js "Fähigkeiten";
  Labels.languages := js "Sprachen"; Labels.interests := js "Interessen";
  Labels.projects := js "Projekte"; Labels.certifications := js "Zertifikate"
|}.

Section Component.

(** [process.env.REACT_APP_API_URL], fixed when the bundle is built: a
    string, or [None] when the variable is not set. *)
Variable REACT_APP_API_URL : option jsstring.

(** [process.env.REACT_APP_API_URL?.replace('/api', '') || 'http://localhost:8000'] *)
Definition API_BASE : jsstring :=
  match REACT_APP_API_URL with
  | Some url =>
      match replace_first (js "/api") [] url with
      | [] => js "http://localhost:8000"
      | base => base
      end
  | None => js "http://localhost:8000"
  end.

Definition DEFAULT_THEME : list (jsstring * value) :=
  [ (js "primaryColor", Str "#1a1a1a");
    (js "fontFamily", Str "Inter, system-ui, sans-serif");
    (js "layout", Str "clean");
    (js "accentStyle", Str "line") ].

Definition PHOTO_SIZE_MAP : list (jsstring * value) :=
  [ (js "small", VNum 56); (js "medium", VNum 76); (js "large", VNum 100) ].

(** ** Language detection *)

Definition GERMAN_MARKERS : list jsstring :=
  map js
    [ "erfahrung"; "kenntnisse"; "fähigkeiten"; "verantwortlich";
      "unternehmen"; "tätigkeiten"; "entwicklung"; "aufgaben";
      "bereich"; "mittels"; "wurden"; "wurde"; "haben";
      "leitung"; "planung"; "umsetzung"; "werkzeug"; "arbeit";
      "softwareentwickler"; "ingenieur"; "datenbankadministrator" ]%string.

(** The [forEach] of [detectGerman]: each description, cut to 200 units,
    is appended to the sample with a space. *)
Fixpoint add_descriptions (sample : jsstring) (exps : list value) : result jsstring :=
  match exps with
  | [] => Ok sample
  | e :: r =>
      let* d := prop e "description" in
      let* ds := as_string (or_else d (VStr [])) in
      add_descriptions (sample ++ substring0 200 ds ++ js " ") r
  end.

(** The sample of [detectGerman], as it stands before [toLowerCase]. *)
Definition german_sample (data : value) : result jsstring :=
  let* pi0 := prop data "personal_info" in
  let pi := or_else pi0 (VObj []) in
  let sample := [] in
  let* t := prop pi "title" in
  let* t := or_prop t pi "jobTitle" in
  let* ts := to_string (or_else t (VStr [])) in
  let sample := sample ++ ts ++ js " " in
  let* s := prop pi "summary" in
  let* s := or_prop s data "profile_summary" in
  let* ss := as_string (or_else s (VStr [])) in
  let sample := sample ++ substring0 400 ss ++ js " " in
  let* e := prop data "experiences" in
  let* e := or_prop e data "experience" in
  let exps := or_else e (VArr []) in
  let* first2 := slice_val 0 2 exps in
  let* items := as_array first2 in
  add_descriptions sample items.

(** [GERMAN_MARKERS.filter(w => sample.includes(w))] *)
Definition matched_markers (sample : jsstring) : list jsstring :=
  filter (fun w => includes sample w) GERMAN_MARKERS.

Definition score (sample : jsstring) : nat := List.length (matched_markers sample).

Definition detectGerman (data : value) : result bool :=
  let* sample := german_sample data in
  let sample := toLowerCase sample in
  Ok (2 <=? score sample)%nat.

(** ** Helpers *)

(** [rgba(hex, a)]; [a] is given as it prints. *)
Definition rgba (hex : value) (a : jsstring) : result jsstring :=
  let channel (from to : nat) : result jsstring :=
    let* part := match hex with
                 | VUndef | VNull => Throw TypeError
                 | _ => slice_val from to hex
                 end in
    let* digits := to_string part in
    Ok (show_int (parseInt16 digits)) in
  let* r := channel 1%nat 3%nat in
  let* g := channel 3%nat 5%nat in
  let* b := channel 5%nat 7%nat in
  Ok (js "rgba(" ++ r ++ js "," ++ g ++ js "," ++ b ++ js "," ++ a ++ js ")").

(** Resolve photo URL: handles /uploads/... paths from backend. *)
Definition resolvePhoto (photo : value) : result value :=
  if negb (truthy photo) then Ok VNull
  else
    let* p := as_string photo in
    if startsWith p (js "/uploads/") || startsWith p (js "uploads/")
    then Ok (VStr (API_BASE ++ js "/" ++ strip_leading_slash p))
    else Ok photo.

(** [typeof s === 'string' ? s : s?.name || ''] *)
Definition skill_name (s : value) : result value :=
  if is_string s then Ok s
  else let* n := get_opt s (js "name") in Ok (or_else n (VStr [])).

(** [list.map(skill_name).filter(Boolean)] *)
Definition skill_names (l : list value) : result (list value) :=
  let* names := mapM skill_name l in
  Ok (filter truthy names).

(** Flatten skills: handles list-of-strings, list-of-objects, or
    dict-of-categories. *)
Definition flattenSkills (skills : value) : result (list value) :=
  if negb (truthy skills) then Ok []
  else
    match skills with
    | VArr l => skill_names l
    | VObj entries =>
        let* per_category :=
          mapM (fun kv => match snd kv with
                          | VArr l => skill_names l
                          | _ => Ok []
                          end) entries in
        Ok (List.concat per_category)
    | _ => Ok []
    end.

(** Get skill categories if skills is a dict. *)
Definition getSkillCategories (skills : value) : value :=
  if negb (truthy skills) || isArray skills then VNull
  else if typeof_object skills && negb (isArray skills) then skills
  else VNull.

(** ** Section title variants *)

Definition SectionTitle (label color border style icon : value) : result node :=
  let style := match style with VUndef => Str "line" | _ => style end in
  if is_str style (js "badge") then
    Ok (NEl "div" [ guard icon (NEl "span" [NVal icon]);
                    NEl "span" [NVal label] ])
  else if is_str style (js "dot") then
    let* _ := rgba color (js "0.3") in
    Ok (NEl "div" [ NEl "div" []; NEl "h2" [NVal label]; NEl "div" [] ])
  else
    Ok (NEl "div" [ NEl "div" [ guard icon (NEl "span" [NVal icon]);
                                NEl "h2" [NVal label] ];
                    NEl "div" [] ]).

(** ** The locals of [CVPreview]

    The constants the component computes before it chooses a layout; the
    layouts below are its branches and read them as the closure does. *)
Record locals : Type := {
  primary : value;
  primaryLight : jsstring;
  primaryBorder : jsstring;
  accentStyle : value;
  photo : value;
  experiences : value;
  education : value;
  skills : list value;
  skillCategories : value;
  certs : value;
  langs : value;
  projects : value;
  interests : value;
  hobbies : value;
  customSections : value;
  summary : value;
  name : value;
  title : value;
  email : value;
  phone : value;
  location : value;
  linkedin : value;
  website : value;
  isGerman : bool;
  L : Labels.t;
  photoSizePx : value;
  photoRadius : jsstring
}.

Section Branches.

Variable e : locals.

(** [<SectionTitle label=... color={primary} border={primaryBorder}
    style={accentStyle} />], with or without an icon. *)
Definition title_of (label icon : value) : node :=
  NTitle label e.(primary) (VStr e.(primaryBorder)) e.(accentStyle) icon.

Definition sTitle (label : jsstring) (icon : string) : node :=
  title_of (VStr label) (Str icon).

Definition heading (label : string) : node := title_of (Str label) VUndef.

(** [{photo && <img src={photo} alt="Profile" style={...} />}] *)
Definition photo_img : node :=
  guard e.(photo) (NImg e.(photo) e.(photoSizePx) e.(photoRadius)).

(** [{v && <span>icon {v}</span>}] of the contact rows. *)
Definition contact (icon : string) (v : value) : node :=
  guard v (NEl "span" [T icon; NVal v]).

(** [items.map(skill_name).filter(Boolean).join(' · ')] *)
Definition joined_names (items : list value) : result jsstring :=
  let* names := skill_names items in
  join (js " · ") names.

(** Skills renderer (handles dict or flat list). *)
Definition renderSkills (compact : bool) : result node :=
  if truthy e.(skillCategories) then
    let* rows :=
      match e.(skillCategories) with
      | VObj entries =>
          mapM (fun kv =>
                  let* text := joined_names (match snd kv with VArr l => l | _ => [] end) in
                  Ok (NEl "div" [ NEl "span" [NVal (VStr (fst kv)); T ":"];
                                  NEl "span" [NVal (VStr text)] ]))
               entries
      | VStr _ | VArr _ => Unmodelled
      | _ => Ok []
      end in
    Ok (NEl "div" [NArr rows])
  else if compact then
    let* text := join (js " · ") e.(skills) in
    Ok (NEl "div" [NVal (VStr text)])
  else
    Ok (NEl "div" [NArr (map (fun s => NEl "span" [NVal s]) e.(skills))]).

(** The date range of an experience entry:
    [{exp.startDate}{(exp.startDate && (exp.endDate || exp.current)) ? ' – ' : ''}{exp.current ? currentLabel : exp.endDate}].
    The clean layout passes its [currentLabel], the shared renderer the
    literal ['Present']. *)
Definition exp_dates (currentLabel : value) (exp : value) : result (list node) :=
  let* startDate := prop exp "startDate" in
  let* endDate := prop exp "endDate" in
  let* current := prop exp "current" in
  Ok [ NVal startDate;
       NVal (if truthy (and_then startDate (or_else endDate current))
             then Str " – " else VStr []);
       NVal (if truthy current then currentLabel else endDate) ].

(** [{edu.startDate}{edu.startDate && edu.endDate ? ' – ' : ''}{edu.endDate}] *)
Definition edu_dates (edu : value) : result (list node) :=
  let* startDate := prop edu "startDate" in
  let* endDate := prop edu "endDate" in
  Ok [ NVal startDate;
       NVal (if truthy (and_then startDate endDate) then Str " – " else VStr []);
       NVal endDate ].

(** [description.split('\n').filter(Boolean).map(line => ...)] *)
Definition bullet_lines (description : value) (row : jsstring -> node) : result node :=
  let* d := as_string description in
  Ok (NArr (map row (filter (fun l => truthy (VStr l)) (split_lines d)))).

(** [exp.role || exp.position || exp.job_title || fallback] *)
Definition exp_role (exp : value) (fallback : string) : result value :=
  let* r := prop exp "role" in
  let* r := or_prop r exp "position" in
  let* r := or_prop r exp "job_title" in
  Ok (or_else r (Str fallback)).

(** [edu.field ? `${sep}${edu.field}` : ''] *)
Definition edu_field (sep : string) (edu : value) : result value :=
  let* field := prop edu "field" in
  if truthy field
  then let* f := to_string field in Ok (VStr (js sep ++ f))
  else Ok (VStr []).

(** [p.link || p.url] *)
Definition project_link (p : value) : result value :=
  let* l := prop p "link" in
  or_prop l p "url".

(** [c.issueDate || c.date] *)
Definition cert_date (c : value) : result value :=
  let* d := prop c "issueDate" in
  or_prop d c "date".

(** The text of an interest: with the [interest] alias (clean, modern) or
    without it (executive, minimal, classic). *)
Definition interest_text (with_alias : bool) (interest : value) : result value :=
  if with_alias then
    if is_string interest then Ok interest
    else
      let* t := get_opt interest (js "name") in
      let* t := or_prop_opt t interest "interest" in
      Ok (or_else t (VStr []))
  else
    if is_string interest then Ok interest
    else
      let* t := get_opt interest (js "name") in
      Ok (or_else t (VStr [])).

(** [txt ? <tag>• {txt}</tag> : null] *)
Definition interest_chip (with_alias : bool) (tag : string) (interest : value)
  : result node :=
  let* txt := interest_text with_alias interest in
  Ok (if truthy txt then NEl tag [T "• "; NVal txt] else NVal VNull).

(** [{(interests.length > 0 || hobbies) && section}], the section built
    from whether the list is non-empty. *)
Definition interests_section (section : bool -> result node) : result node :=
  let* len := prop e.(interests) "length" in
  let* nonempty := gt0 len in
  guardM (if nonempty then VBool true else e.(hobbies)) (section nonempty).

(** [customSections.filter(cs => cs.title && cs.content).map(block)] *)
Definition custom_kept (cs : value) : result bool :=
  let* t := prop cs "title" in
  if truthy t then let* c := prop cs "content" in Ok (truthy c)
  else Ok false.

Definition custom_blocks (block : value -> result node) : result node :=
  let* items := as_array e.(customSections) in
  let* kept := filterM custom_kept items in
  let* ns := mapM block kept in
  Ok (NArr ns).

Definition language_row (l : value) : result node :=
  let* language := prop l "language" in
  let* proficiency := prop l "proficiency" in
  Ok (NEl "div" [NEl "span" [NVal language]; NEl "span" [NVal proficiency]]).

(** A certification row with its date at the right (clean, modern,
    minimal, classic). *)
Definition cert_row (c : value) : result node :=
  let* cname := prop c "name" in
  let* issuer := prop c "issuer" in
  let* date := cert_date c in
  Ok (NEl "div" [ NEl "div" [ NEl "span" [NVal cname];
                              guard issuer (NEl "span" [T " — "; NVal issuer]) ];
                  NEl "span" [NVal date] ]).

(** A project row of the layouts other than clean. *)
Definition project_row (p : value) : result node :=
  let* pname := prop p "name" in
  let* link := project_link p in
  let* description := prop p "description" in
  Ok (NEl "div" [ NEl "span" [NVal pname];
                  guard link (NEl "span" [NVal link]);
                  guard description (NEl "div" [NVal description]) ]).

(** [{summary && <><SectionTitle label="Profile" .../><p>{summary}</p></>}] *)
Definition profile_fragment : node :=
  guard e.(summary) (NFrag [heading "Profile"; NEl "p" [NVal e.(summary)]]).

(** A custom section of the minimal and classic layouts. *)
Definition custom_block (cs : value) : result node :=
  let* t := prop cs "title" in
  let* c := prop cs "content" in
  Ok (NEl "div" [title_of t VUndef; NEl "p" [NVal c]]).

(** ** Shared renderers *)

Definition shared_experience (len : nat) (i : nat) (exp : value)
  : result node :=
  let* role := exp_role exp "Role" in
  let* company := prop exp "company" in
  let* location := prop exp "location" in
  let* dates := exp_dates (Str "Present") exp in
  let* description := prop exp "description" in
  let* bullets :=
    guardM description
      (let* lines := bullet_lines description
                       (fun line => NEl "div" [ NEl "span" [T "•"];
                                                NVal (VStr (strip_bullet line)) ]) in
       Ok (NEl "div" [lines])) in
  Ok (NEl "div"
        [ NEl "div" [ NEl "div" [ NEl "span" [NVal role];
                                  guard company (NEl "span" [T " · "; NVal company]);
                                  guard location (NEl "span" [T " — "; NVal location]) ];
                      NEl "span" dates ];
          bullets;
          if (Z.of_nat i <? Z.of_nat len - 1)%Z then NEl "div" [] else NVal (VBool false) ]).

Definition _renderExp (experiences primary border accentStyle : value) : result node :=
  let* len := prop experiences "length" in
  if negb (truthy len) then Ok (NVal VNull)
  else
    let* items := as_array experiences in
    let* rows := mapMi (shared_experience (List.length items)) 0 items in
    Ok (NEl "div" [ NTitle (Str "Experience") primary border accentStyle VUndef;
                    NArr rows ]).

Definition shared_education (edu : value) : result node :=
  let* degree := prop edu "degree" in
  let* field := edu_field " in " edu in
  let* institution := prop edu "institution" in
  let* dates := edu_dates edu in
  let* grade := prop edu "grade" in
  Ok (NEl "div"
        [ NEl "div" [ NEl "div" [ NEl "span" [NVal degree; NVal field];
                                  guard institution
                                    (NEl "span" [T " · "; NVal institution]) ];
                      NEl "span" dates ];
          guard grade (NEl "div" [T "Grade: "; NVal grade]) ]).

Definition _renderEdu (education primary border accentStyle : value) : result node :=
  let* len := prop education "length" in
  if negb (truthy len) then Ok (NVal VNull)
  else
    let* rows := map_nodes education shared_education in
    Ok (NEl "div" [ NTitle (Str "Education") primary border accentStyle VUndef;
                    rows ]).

Definition renderExp : result node :=
  _renderExp e.(experiences) e.(primary) (VStr e.(primaryBorder)) e.(accentStyle).

Definition renderEdu : result node :=
  _renderEdu e.(education) e.(primary) (VStr e.(primaryBorder)) e.(accentStyle).

(** ** Clean layout *)

Definition clean_experience (currentLabel : value) (exp : value) : result node :=
  let* role := exp_role exp "—" in
  let* company := prop exp "company" in
  let* location := prop exp "location" in
  let* dates := exp_dates currentLabel exp in
  let* description := prop exp "description" in
  let* bullets :=
    guardM description
      (let* lines := bullet_lines description
                       (fun line => NEl "div" [ NEl "span" [T "•"];
                                                NEl "span" [NVal (VStr (strip_bullet line))] ]) in
       Ok (NEl "div" [lines])) in
  Ok (NEl "div"
        [ NEl "div" [ NEl "div" [ NEl "span" [NVal role];
                                  guard company (NEl "span" [T ", "; NVal company]);
                                  guard location (NEl "span" [T " — "; NVal location]) ];
                      NEl "span" dates ];
          bullets ]).

Definition clean_education (edu : value) : result node :=
  let* degree := prop edu "degree" in
  let* field := edu_field " – " edu in
  let* institution := prop edu "institution" in
  let* dates := edu_dates edu in
  let* grade := prop edu "grade" in
  Ok (NEl "div"
        [ NEl "div" [ NEl "div" [ NEl "span" [NVal degree; NVal field];
                                  guard institution
                                    (NEl "span" [T ", "; NVal institution]) ];
                      NEl "span" dates ];
          guard grade (NEl "div" [ NVal (if e.(isGerman) then Str "Note" else Str "Grade");
                                   T ": "; NVal grade ]) ]).

Definition clean_project (p : value) : result node :=
  let* pname := prop p "name" in
  let* link := project_link p in
  let* description := prop p "description" in
  Ok (NEl "div" [ NEl "div" [ NEl "span" [NVal pname];
                              guard link (NEl "span" [NVal link]) ];
                  guard description (NEl "div" [NVal description]) ]).

Definition clean_custom (cs : value) : result node :=
  let* t := prop cs "title" in
  let* c := prop cs "content" in
  Ok (NEl "div" [title_of t (Str "📌"); NEl "p" [NVal c]]).

Definition layout_clean : result node :=
  let currentLabel := if e.(isGerman) then Str "Heute" else Str "Present" in
  let header :=
    NEl "div"
      [ NEl "div" [ NEl "h1" [NVal (or_else e.(name) (Str "Your Name"))];
                    guard e.(title) (NEl "p" [NVal e.(title)]);
                    NEl "div" [ contact "✉ " e.(email); contact "✆ " e.(phone);
                                contact "📍 " e.(location); contact "in " e.(linkedin);
                                contact "🔗 " e.(website) ] ];
        photo_img ] in
  let profile :=
    guard e.(summary)
      (NEl "div" [ sTitle (Labels.profile e.(L)) "👤"; NEl "p" [NVal e.(summary)] ]) in
  let* experience :=
    when_nonempty e.(experiences)
      (let* rows := map_nodes e.(experiences) (clean_experience currentLabel) in
       Ok (NEl "div" [sTitle (Labels.experience e.(L)) "💼"; rows])) in
  let* education :=
    when_nonempty e.(education)
      (let* rows := map_nodes e.(education) clean_education in
       Ok (NEl "div" [sTitle (Labels.education e.(L)) "🎓"; rows])) in
  let* skills :=
    guardM (match e.(skills) with [] => e.(skillCategories) | _ => VBool true end)
      (let* body := renderSkills false in
       Ok (NEl "div" [sTitle (Labels.skills e.(L)) "⚡"; body])) in
  let* languages :=
    when_nonempty e.(langs)
      (let* rows := map_nodes e.(langs) language_row in
       Ok (NEl "div" [sTitle (Labels.languages e.(L)) "🌐"; NEl "div" [rows]])) in
  let* interests :=
    interests_section (fun nonempty =>
      let* body :=
        if nonempty
        then let* chips := map_nodes e.(interests) (interest_chip true "span") in
             Ok (NEl "div" [chips])
        else Ok (NEl "p" [NVal e.(hobbies)]) in
      Ok (NEl "div" [sTitle (Labels.interests e.(L)) "🎯"; body])) in
  let* projects :=
    when_nonempty e.(projects)
      (let* rows := map_nodes e.(projects) clean_project in
       Ok (NEl "div" [sTitle (Labels.projects e.(L)) "🚀"; rows])) in
  let* certifications :=
    when_nonempty e.(certs)
      (let* rows := map_nodes e.(certs) cert_row in
       Ok (NEl "div" [sTitle (Labels.certifications e.(L)) "🏅"; rows])) in
  let* custom := custom_blocks clean_custom in
  Ok (NEl "div" [ header; NEl "div" []; profile; experience; education; skills;
                  languages; interests; projects; certifications; custom ]).

(** ** Modern layout: left sidebar + main *)

(** [v && `${icon}${v}`] *)
Definition contact_line (icon : string) (v : value) : result value :=
  if truthy v then let* s := to_string v in Ok (VStr (js icon ++ s)) else Ok v.

Definition layout_modern : result node :=
  let* c1 := contact_line "✉ " e.(email) in
  let* c2 := contact_line "✆ " e.(phone) in
  let* c3 := contact_line "📍 " e.(location) in
  let* c4 := contact_line "in " e.(linkedin) in
  let contacts :=
    NArr (map (fun c => NEl "div" [NVal c]) (filter truthy [c1; c2; c3; c4])) in
  let skills :=
    match e.(skills) with
    | [] => NVal (VBool false)
    | _ => NFrag [ NEl "div" [T "Skills"];
                   NEl "div" [NArr (map (fun s => NEl "span" [NVal s]) e.(skills))] ]
    end in
  let* languages :=
    when_nonempty e.(langs)
      (let* rows := map_nodes e.(langs) language_row in
       Ok (NEl "div" [NEl "div" [T "Languages"]; rows])) in
  let* interests :=
    interests_section (fun nonempty =>
      let* body :=
        if nonempty then map_nodes e.(interests) (interest_chip true "div")
        else Ok (NEl "div" [NVal e.(hobbies)]) in
      Ok (NEl "div" [NEl "div" [T "Interests"]; body])) in
  let* experience := renderExp in
  let* education := renderEdu in
  let* certifications :=
    when_nonempty e.(certs)
      (let* rows := map_nodes e.(certs) cert_row in
       Ok (NFrag [heading "Certifications"; rows])) in
  let* projects :=
    when_nonempty e.(projects)
      (let* rows := map_nodes e.(projects) project_row in
       Ok (NFrag [heading "Projects"; rows])) in
  Ok (NEl "div"
        [ NEl "div" [ photo_img;
                      NEl "h1" [NVal (or_else e.(name) (Str "Your Name"))];
                      guard e.(title) (NEl "p" [NVal e.(title)]);
                      NEl "div" [contacts];
                      skills; languages; interests ];
          NEl "div" [ profile_fragment; experience; education;
                      certifications; projects ] ]).

(** ** Executive layout: two-column header, colored accent *)

Definition executive_cert (c : value) : result node :=
  let* cname := prop c "name" in
  let* issuer := prop c "issuer" in
  Ok (NEl "div" [ NEl "div" [NVal cname]; guard issuer (NEl "div" [NVal issuer]) ]).

Definition layout_executive : result node :=
  let header :=
    NEl "div"
      [ NEl "div" [ NEl "div" [ NEl "h1" [NVal (or_else e.(name) (Str "Your Name"))];
                                guard e.(title) (NEl "p" [NVal e.(title)]) ];
                    photo_img ];
        NEl "div" [ contact "✉ " e.(email); contact "✆ " e.(phone);
                    contact "📍 " e.(location); contact "in " e.(linkedin) ] ] in
  let* skills :=
    guardM (match e.(skills) with [] => e.(skillCategories) | _ => VBool true end)
      (let* body := renderSkills true in
       Ok (NFrag [heading "Skills"; NEl "div" [body]])) in
  let* languages :=
    when_nonempty e.(langs)
      (let* rows := map_nodes e.(langs) language_row in
       Ok (NFrag [heading "Languages"; rows])) in
  let* interests :=
    interests_section (fun nonempty =>
      let* body :=
        if nonempty then map_nodes e.(interests) (interest_chip false "div")
        else Ok (NEl "div" [NVal e.(hobbies)]) in
      Ok (NEl "div" [heading "Interests"; body])) in
  let* certifications :=
    when_nonempty e.(certs)
      (let* rows := map_nodes e.(certs) executive_cert in
       Ok (NEl "div" [heading "Certifications"; rows])) in
  (* the right column's [borderLeft: `2px solid ${primary}`], built before
     the children of that column *)
  let* _ := to_string e.(primary) in
  let* experience := renderExp in
  let* education := renderEdu in
  let* projects :=
    when_nonempty e.(projects)
      (let* rows := map_nodes e.(projects) project_row in
       Ok (NFrag [heading "Projects"; rows])) in
  Ok (NEl "div"
        [ header;
          NEl "div" [ NEl "div" [skills; languages; interests; certifications];
                      NEl "div" [profile_fragment; experience; education; projects] ] ]).

(** ** Minimal and classic layouts

    From the skills grid to the custom sections the two have the same
    elements (the styles differ). *)

Definition skills_languages_grid : result node :=
  let* skills :=
    match e.(skills) with
    | [] => Ok (NVal (VBool false))
    | _ => let* body := renderSkills false in
           Ok (NEl "div" [heading "Skills"; body])
    end in
  let* languages :=
    when_nonempty e.(langs)
      (let* rows := map_nodes e.(langs) language_row in
       Ok (NEl "div" [heading "Languages"; rows])) in
  Ok (NEl "div" [skills; languages]).

Definition stacked_interests : result node :=
  interests_section (fun nonempty =>
    let* body :=
      if nonempty
      then let* chips := map_nodes e.(interests) (interest_chip false "span") in
           Ok (NEl "div" [chips])
      else Ok (NEl "p" [NVal e.(hobbies)]) in
    Ok (NEl "div" [heading "Interests"; body])).

Definition stacked_certifications : result node :=
  when_nonempty e.(certs)
    (let* rows := map_nodes e.(certs) cert_row in
     Ok (NEl "div" [heading "Certifications"; rows])).

Definition stacked_projects : result node :=
  when_nonempty e.(projects)
    (let* rows := map_nodes e.(projects) project_row in
     Ok (NEl "div" [heading "Projects"; rows])).

Definition layout_minimal : result node :=
  let header :=
    NEl "div"
      [ NEl "div"
          [ NEl "div" [ NEl "h1" [NVal (or_else e.(name) (Str "Your Name"))];
                        guard e.(title) (NEl "p" [NVal e.(title)]);
                        NEl "div" [ contact "✉ " e.(email); contact "✆ " e.(phone);
                                    contact "📍 " e.(location);
                                    contact "in " e.(linkedin) ] ];
            photo_img ] ] in
  (* the header's [borderBottom: `2px solid ${primary}`] *)
  let* _ := to_string e.(primary) in
  let* experience := renderExp in
  let* education := renderEdu in
  let* grid := skills_languages_grid in
  let* interests := stacked_interests in
  let* certifications := stacked_certifications in
  let* projects := stacked_projects in
  let* custom := custom_blocks custom_block in
  Ok (NEl "div" [ header; profile_fragment; experience; education; grid;
                  interests; certifications; projects; custom ]).

(** Classic layout (default). *)
Definition layout_classic : result node :=
  let header :=
    NEl "div"
      [ NEl "div" [ NEl "div" [ NEl "h1" [NVal (or_else e.(name) (Str "Your Name"))];
                                guard e.(title) (NEl "p" [NVal e.(title)]) ];
                    photo_img ];
        NEl "div" [ contact "✉ " e.(email); contact "✆ " e.(phone);
                    contact "📍 " e.(location); contact "in " e.(linkedin);
                    contact "🔗 " e.(website) ] ] in
  let profile :=
    guard e.(summary) (NEl "div" [heading "Profile"; NEl "p" [NVal e.(summary)]]) in
  let* experience := renderExp in
  let* education := renderEdu in
  let* grid := skills_languages_grid in
  let* interests := stacked_interests in
  let* certifications := stacked_certifications in
  let* projects := stacked_projects in
  let* custom := custom_blocks custom_block in
  Ok (NEl "div"
        [ header;
          NEl "div" [ profile; experience; education; grid; interests;
                      certifications; projects; custom ] ]).

End Branches.

(** ** The component *)

(** The own properties a spread copies that the component goes on to read:
    those of an object.  (The index properties a string or an array would
    contribute are never read.) *)
Definition own_props (v : value) : list (jsstring * value) :=
  match v with VObj props => props | _ => [] end.

(** [const theme = { ...DEFAULT_THEME, ...themeProp }]: the later spread
    wins, so its properties are found first. *)
Definition merge_theme (themeProp : value) : value :=
  VObj (own_props themeProp ++ DEFAULT_THEME).

(** The constants of [CVPreview], in the order the component computes
    them.  [data] and [themeProp] have had their parameter defaults
    applied. *)
Definition compute_locals (data theme : value) : result locals :=
  let* primary := prop theme "primaryColor" in
  let* primaryLight := rgba primary (js "0.12") in
  let* primaryBorder := rgba primary (js "0.3") in
  let* accent := prop theme "accentStyle" in
  let accentStyle := or_else accent (Str "line") in
  let* pi0 := prop data "personal_info" in
  let pi := or_else pi0 (VObj []) in
  let* ph := prop pi "photo" in
  let* ph := or_prop ph data "photo_path" in
  let* photo := resolvePhoto ph in
  let* experiences := prop data "experiences" in
  let experiences := or_else experiences (VArr []) in
  let* education := prop data "educations" in
  let education := or_else education (VArr []) in
  let* rawSkills := prop data "skills" in
  let* skills := flattenSkills rawSkills in
  let skillCategories := getSkillCategories rawSkills in
  let* certs := prop data "certifications" in
  let certs := or_else certs (VArr []) in
  let* langs := prop data "languages" in
  let langs := or_else langs (VArr []) in
  let* projects := prop data "projects" in
  let projects := or_else projects (VArr []) in
  let* interests := prop data "interests" in
  let interests := or_else interests (VArr []) in
  let* hobbies := prop data "hobbies" in
  let* hobbies := or_prop hobbies data "hobbies_text" in
  let hobbies := or_else hobbies (VStr []) in
  let* customSections := prop data "custom_sections" in
  let customSections := or_else customSections (VArr []) in
  let* summary := prop pi "summary" in
  let* summary := or_prop summary data "profile_summary" in
  let summary := or_else summary (VStr []) in
  let* name := prop pi "name" in
  let* name := or_prop name data "full_name" in
  let name := or_else name (VStr []) in
  let* title := prop pi "title" in
  let* title := or_prop title pi "jobTitle" in
  let* title := or_prop title data "title" in
  let title := or_else title (VStr []) in
  let* email := prop pi "email" in
  let* email := or_prop email data "email" in
  let email := or_else email (VStr []) in
  let* phone := prop pi "phone" in
  let* phone := or_prop phone data "phone" in
  let phone := or_else phone (VStr []) in
  let* location := prop pi "location" in
  let* location := or_prop location data "location" in
  let location := or_else location (VStr []) in
  let* linkedin := prop pi "linkedin" in
  let* linkedin := or_prop linkedin pi "linkedin_url" in
  let* linkedin := or_prop linkedin data "linkedin_url" in
  let linkedin := or_else linkedin (VStr []) in
  let* website := prop pi "website" in
  let website := or_else website (VStr []) in
  let* isGerman := detectGerman data in
  let L := if isGerman then LABELS_DE else LABELS_EN in
  let* photoSize := prop pi "photoSize" in
  let* photoSizePx :=
    match photoSize with
    | VNum _ => Ok photoSize
    | _ => let* key := to_string photoSize in
           let* size := get (VObj PHOTO_SIZE_MAP) key in
           Ok (or_else size (VNum 76))
    end in
  let* photoShape := prop pi "photoShape" in
  let photoRadius := if is_str photoShape (js "square") then js "6px" else js "50%" in
  Ok {| primary := primary; primaryLight := primaryLight;
        primaryBorder := primaryBorder; accentStyle := accentStyle;
        photo := photo; experiences := experiences; education := education;
        skills := skills; skillCategories := skillCategories; certs := certs;
        langs := langs; projects := projects; interests := interests;
        hobbies := hobbies; customSections := customSections;
        summary := summary; name := name; title := title; email := email;
        phone := phone; location := location; linkedin := linkedin;
        website := website; isGerman := isGerman; L := L;
        photoSizePx := photoSizePx; photoRadius := photoRadius |}.

(** The if-chain on [theme.layout]. *)
Definition choose_layout (layout : value) (e : locals) : result node :=
  if is_str layout (js "clean") then layout_clean e
  else if is_str layout (js "modern") then layout_modern e
  else if is_str layout (js "executive") then layout_executive e
  else if is_str layout (js "minimal") then layout_minimal e
  else layout_classic e.

(** [CVPreview({ data = {}, theme: themeProp = {} })].  (The [scale] prop
    is not read.) *)
Definition CVPreview (data themeProp : value) : result node :=
  let data := match data with VUndef => VObj [] | _ => data end in
  let themeProp := match themeProp with VUndef => VObj [] | _ => themeProp end in
  let theme := merge_theme themeProp in
  let* e := compute_locals data theme in
  let* layout := prop theme "layout" in
  choose_layout layout e.

End Component.

(* ================================================================== *)
(** * What React makes of the tree *)
(* ================================================================== *)

(** Expansion of the [SectionTitle] elements.  (The component returns host
    elements only, so one pass is enough.) *)
Fixpoint expand (n : node) : result node :=
  match n with
  | NTitle label color border style icon => SectionTitle label color border style icon
  | NEl tag kids => let* ks := mapM expand kids in Ok (NEl tag ks)
  | NFrag kids => let* ks := mapM expand kids in Ok (NFrag ks)
  | NArr items => let* ks := mapM expand items in Ok (NArr ks)
  | NVal _ | NImg _ _ _ => Ok n
  end.

(** The text a value renders as when it is a child: strings and numbers
    as they print, [null], [undefined] and booleans as nothing, an array
    as its items in turn; a plain object is refused. *)
Fixpoint child_text (v : value) : result jsstring :=
  match v with
  | VStr s => Ok s
  | VNum z => Ok (decimal z)
  | VUndef | VNull | VBool _ => Ok []
  | VArr items =>
      (fix go (l : list value) : result jsstring :=
         match l with
         | [] => Ok []
         | x :: r => let* h := child_text x in let* t := go r in Ok (h ++ t)
         end) items
  | VObj _ => Throw InvalidChild
  end.

(** Text content of a tree of host elements. *)
Fixpoint text_of (n : node) : result jsstring :=
  let all := fix all (l : list node) : result jsstring :=
    match l with
    | [] => Ok []
    | x :: r => let* h := text_of x in let* t := all r in Ok (h ++ t)
    end in
  match n with
  | NVal v => child_text v
  | NEl _ kids | NFrag kids | NArr kids => all kids
  | NImg _ _ _ | NTitle _ _ _ _ _ => Ok []
  end.

(** The text on the page: expand the section titles, then read the text. *)
Definition rendered_text (n : node) : result jsstring :=
  let* m := expand n in text_of m.

(** The labels of the [SectionTitle] elements of a tree, in document
    order. *)
Fixpoint titles (n : node) : list value :=
  match n with
  | NTitle label _ _ _ _ => [label]
  | NEl _ kids | NFrag kids | NArr kids => flat_map titles kids
  | NVal _ | NImg _ _ _ => []
  end.

(* ================================================================== *)
(** * Documents and themes used in the statements *)
(* ================================================================== *)

(** An object literal with property names written as literals of this
    file. *)
Definition obj (props : list (string * value)) : value :=
  VObj (map (fun kv => (js (fst kv), snd kv)) props).



(** Own property of an object, [undefined] when there is none. *)
Definition field (v : value) (k : string) : value :=
  match v with
  | VObj props => match lookup (js k) props with Some x => x | None => VUndef end
  | _ => VUndef
  end.

(** A document with a title, a job title, a summary and experience
    descriptions, and nothing else. *)
Definition cv_document (title jobTitle summary : jsstring)
    (descriptions : list jsstring) : value :=
  obj [ ("personal_info",
         obj [ ("title", VStr title); ("jobTitle", VStr jobTitle);
               ("summary", VStr summary) ]);
        ("experiences",
         VArr (map (fun d => obj [("description", VStr d)]) descriptions)) ]%string.


(** The name of a skill entry in the words of the specification: the
    entry itself when it is a string, its [name] field otherwise (the empty
    string when it has none). *)
Definition entry_name (s : value) : value :=
  match s with
  | VStr _ => s
  | _ => or_else (field s "name") (VStr [])
  end.

(** [{ layout: '...' }] *)
Definition theme_of (layout : string) : value := obj [("layout"%string, Str layout)].

(** A résumé written in German, with one position held at present. *)
Definition german_cv : value :=
  obj [ ("personal_info",
         obj [("summary", Str "verantwortlich für die Entwicklung und Leitung")]);
        ("experiences",
         VArr [obj [("startDate", Str "2022-01"); ("current", VBool true)]]) ]%string.

(** The text and the section titles of a render, when it succeeds. *)
Definition page_text (r : result node) : result jsstring :=
  let* t := r in rendered_text t.

Definition page_titles (r : result node) : result (list value) :=
  let* t := r in Ok (titles t).

(** The date range of an experience entry in the words of the
    specification: the start date, the separator when there is a start
    date and an end date or a current position, then the end label. *)
Definition date_range_words (startDate endDate : jsstring) (current : bool)
    (currentLabel : jsstring) : jsstring :=
  startDate
  ++ (if truthy (VStr startDate) && (truthy (VStr endDate) || current)
      then js " – " else [])
  ++ (if current then currentLabel else endDate).







(** The locals with other custom sections. *)
Definition set_customSections (e : locals) (cs : value) : locals :=
  {| primary := e.(primary); primaryLight := e.(primaryLight);
     primaryBorder := e.(primaryBorder); accentStyle := e.(accentStyle);
     photo := e.(photo); experiences := e.(experiences);
     education := e.(education); skills := e.(skills);
     skillCategories := e.(skillCategories); certs := e.(certs);
     langs := e.(langs); projects := e.(projects); interests := e.(interests);
     hobbies := e.(hobbies); customSections := cs; summary := e.(summary);
     name := e.(name); title := e.(title); email := e.(email);
     phone := e.(phone); location := e.(location); linkedin := e.(linkedin);
     website := e.(website); isGerman := e.(isGerman); L := e.(L);
     photoSizePx := e.(photoSizePx); photoRadius := e.(photoRadius) |}.


(* ================================================================== *)
(** * Documents of the expected shape *)
(* ================================================================== *)



























(* ================================================================== *)
(** * The pages that hand documents to the component *)
(* ================================================================== *)

(** The editor page ([CVEditorPage]) normalises the document it loads and
    edits it entry by entry before it passes it to [CVPreview]; the
    customize page ([CVCustomizePage]) builds the preview document with
    [buildPreviewData]. *)

(** ** Spread, assignment and the list helpers *)

(** [s.trim()] *)
Definition trim (s : jsstring) : jsstring :=
  rev (drop_spaces (rev (drop_spaces s))).

(** The index properties of an array or of a string, from index [i] on. *)
Fixpoint indexed {A : Type} (f : A -> value) (i : nat) (l : list A)
  : list (jsstring * value) :=
  match l with
  | [] => []
  | x :: r => (decimal (Z.of_nat i), f x) :: indexed f (S i) r
  end.

(** [{ ...v }]: the own enumerable properties of [v]. *)
Definition spread (v : value) : list (jsstring * value) :=
  match v with
  | VObj props => props
  | VArr items => indexed (fun x => x) 0 items
  | VStr s => indexed (fun c => VStr [c]) 0 s
  | _ => []
  end.

(** [o.k = v] on the properties of a plain object: an existing property
    keeps its place, a new one comes last. *)
Fixpoint assign (k : jsstring) (v : value) (props : list (jsstring * value))
  : list (jsstring * value) :=
  match props with
  | [] => [(k, v)]
  | (k', x) :: r =>
      if str_eqb k k' then (k', v) :: r else (k', x) :: assign k v r
  end.

Definition set_prop (o : value) (k : string) (v : value) : value :=
  match o with
  | VObj props => VObj (assign (js k) v props)
  | _ => o
  end.

(** [list.filter((_, j) => keep(j))], the callback given the index only. *)
Fixpoint filter_index {A : Type} (keep : nat -> bool) (j : nat) (l : list A)
  : list A :=
  match l with
  | [] => []
  | x :: r =>
      if keep j then x :: filter_index keep (S j) r
      else filter_index keep (S j) r
  end.

(** [list.filter((_, j) => j !== i)]: the removal of the editor's lists
    ([removeExp], [removeEdu], [removeLang], the [×] of a skill, ...). *)
Definition remove_index {A : Type} (i : nat) (l : list A) : list A :=
  filter_index (fun j => negb (Nat.eqb j i)) 0 l.

(** [names.includes(s)] for a string [s]. *)
Definition includes_str (names : list value) (s : jsstring) : bool :=
  existsb (fun v => is_str v s) names.

(** ** The skills input of the editor *)

Module SkillsInput.

(** [typeof sk === 'string' ? sk : sk.name] *)
Definition skillName (sk : value) : result value :=
  if is_string sk then Ok sk else get sk (js "name").

(** [add]: what it passes to [onChange], [None] when it does not call
    it. *)
Definition add (skills : list value) (input : jsstring)
  : result (option (list value)) :=
  let s := trim input in
  if truthy (VStr s) then
    let skillObj :=
      obj [("name", VStr s); ("level", VStr []); ("category", VStr [])]%string in
    let* skillNames := mapM skillName skills in
    Ok (if includes_str skillNames s then None else Some (skills ++ [skillObj]))
  else Ok None.

End SkillsInput.

(** ** Normalisation of a loaded document *)

(** [if (o.a && !o.b) o.b = o.a;] *)
Definition fill_from (a b : string) (o : value) : result value :=
  let* x := prop o a in
  if truthy x then
    let* y := prop o b in
    if truthy y then Ok o else Ok (set_prop o b x)
  else Ok o.

(** [if (!o.b && o.a) o.b = o.a;] *)
Definition fill_missing (b a : string) (o : value) : result value :=
  let* y := prop o b in
  if truthy y then Ok o
  else
    let* x := prop o a in
    if truthy x then Ok (set_prop o b x) else Ok o.

(** [if (!o.b) { if (o.a1) o.b = o.a1; else if (o.a2) o.b = o.a2; else o.b = ''; }] *)
Definition fill_date (b a1 a2 : string) (o : value) : result value :=
  let* y := prop o b in
  if truthy y then Ok o
  else
    let* x1 := prop o a1 in
    if truthy x1 then Ok (set_prop o b x1)
    else
      let* x2 := prop o a2 in
      if truthy x2 then Ok (set_prop o b x2) else Ok (set_prop o b (VStr [])).

(** [typeof v === 'object' && v !== null] *)
Definition is_object (v : value) : bool :=
  match v with VArr _ | VObj _ => true | _ => false end.

(** The callback of [normalizedExperiences]. *)
Definition normalizeExperience (exp : value) : result value :=
  if is_object exp then
    let normalized := VObj (spread exp) in
    let* normalized := fill_from "role" "position" normalized in
    let* normalized := fill_from "position" "role" normalized in
    let* job_title := prop normalized "job_title" in
    let* normalized :=
      if truthy job_title then
        let* position := prop normalized "position" in
        if truthy position then Ok normalized
        else Ok (set_prop (set_prop normalized "position" job_title)
                          "role" job_title)
      else Ok normalized in
    let* normalized := fill_missing "startDate" "start_date" normalized in
    let* normalized := fill_missing "endDate" "end_date" normalized in
    Ok normalized
  else Ok exp.

(** [Array.isArray(d.experiences) ? d.experiences.map(...) : []] *)
Definition normalizedExperiences (experiences : value) : result value :=
  match experiences with
  | VArr l => let* l' := mapM normalizeExperience l in Ok (VArr l')
  | _ => Ok (VArr [])
  end.

(** The callback of [normalizedEducations]. *)
Definition normalizeEducation (edu : value) : result value :=
  if is_object edu then
    let normalized := VObj (spread edu) in
    let* normalized := fill_missing "institution" "institution_name" normalized in
    let* normalized := fill_missing "field" "field_of_study" normalized in
    let* normalized := fill_date "startDate" "start_date" "start_year" normalized in
    let* normalized := fill_date "endDate" "end_date" "end_year" normalized in
    Ok normalized
  else Ok edu.

Definition normalizedEducations (educations : value) : result value :=
  match educations with
  | VArr l => let* l' := mapM normalizeEducation l in Ok (VArr l')
  | _ => Ok (VArr [])
  end.

(** The [forEach] over the items of one category. *)
Definition category_skills (cat : jsstring) (items : list value) : list value :=
  flat_map (fun item =>
              match item with
              | VStr _ =>
                  [obj [("name", item); ("level", VStr []);
                        ("category", VStr cat)]%string]
              | _ =>
                  if truthy item
                  then [VObj (assign (js "category") (VStr cat) (spread item))]
                  else []
              end) items.

(** Normalize skills to flat array (handle dict-of-categories). *)
Definition normalizedSkills (skills : value) : value :=
  match skills with
  | VArr _ => skills
  | VObj entries =>
      VArr (flat_map (fun kv => match snd kv with
                                | VArr items => category_skills (fst kv) items
                                | _ => []
                                end) entries)
  | _ => VArr []
  end.

(** ** Editing an experience entry *)

(** The entry [updateExp] stores at its index:
    [{ ...entry, [field]: val }], then the role and the position kept in
    sync. *)
Definition updated_experience (entry : value) (field : jsstring) (val : value)
  : value :=
  let o := VObj (assign field val (spread entry)) in
  let o := if str_eqb field (js "position") then set_prop o "role" val else o in
  if str_eqb field (js "role") then set_prop o "position" val else o.

(** [updateExp(i, field, val)] for an index of the list.  (An index past
    the end would leave holes in the array, which the arrays of this file
    have not.) *)
Fixpoint updateExp (experiences : list value) (i : nat) (field : jsstring)
    (val : value) : result (list value) :=
  match experiences, i with
  | [], _ => Unmodelled
  | x :: r, O => Ok (updated_experience x field val :: r)
  | x :: r, S i' => let* r' := updateExp r i' field val in Ok (x :: r')
  end.

(** ** The preview document of the customize page *)

(** Build a unified data object the CVPreview component can consume. *)
Definition buildPreviewData (raw : value) : result value :=
  let* personal_info := prop raw "personal_info" in
  let* experiences := prop raw "experiences" in
  let* projects := prop raw "projects" in
  let* skills := prop raw "skills" in
  let* educations := prop raw "educations" in
  let* languages := prop raw "languages" in
  let* certifications := prop raw "certifications" in
  let* interests := prop raw "interests" in
  let* full_name := prop raw "full_name" in
  let* title := prop raw "title" in
  let* email := prop raw "email" in
  let* phone := prop raw "phone" in
  let* location := prop raw "location" in
  let* linkedin_url := prop raw "linkedin_url" in
  let* profile_summary := prop raw "profile_summary" in
  let* photo_path := prop raw "photo_path" in
  Ok (obj [ ("personal_info", or_else personal_info (VObj []));
            ("experiences", or_else experiences (VArr []));
            ("projects", or_else projects (VArr []));
            ("skills", or_else skills (VArr []));
            ("educations", or_else educations (VArr []));
            ("languages", or_else languages (VArr []));
            ("certifications", or_else certifications (VArr []));
            ("interests", or_else interests (VArr []));
            ("full_name", or_else full_name (VStr []));
            ("title", or_else title (VStr []));
            ("email", or_else email (VStr []));
            ("phone", or_else phone (VStr []));
            ("location", or_else location (VStr []));
            ("linkedin_url", or_else linkedin_url (VStr []));
            ("profile_summary", or_else profile_summary (VStr []));
            ("photo_path", or_else photo_path (VStr [])) ]%string).

(* ================================================================== *)
(** * Words for the statements about the pages and the helpers *)
(* ================================================================== *)

(** The names a category contributes to the flat list: those of its
    entries when it is a sequence, none otherwise. *)
Definition category_names (v : value) : list value :=
  match v with
  | VArr l => filter truthy (map entry_name l)
  | _ => []
  end.

(** The first truthy value of a list, [last] when there is none. *)
Fixpoint first_truthy (l : list value) (last : value) : value :=
  match l with
  | [] => last
  | x :: r => if truthy x then x else first_truthy r last
  end.

(** The top-level fields of the document the component reads. *)
Definition document_fields : list string :=
  [ "personal_info"; "photo_path"; "experiences"; "experience"; "educations";
    "skills"; "certifications"; "languages"; "projects"; "interests";
    "hobbies"; "hobbies_text"; "custom_sections"; "profile_summary";
    "full_name"; "title"; "email"; "phone"; "location";
    "linkedin_url" ]%string.

(** A property name the component never asks the document for. *)
Definition unread (k : jsstring) : bool :=
  forallb (fun name => negb (str_eqb (js name) k)) document_fields.

(** A row of the shared experience renderer that ends with a divider. *)
Definition has_divider (row : node) : bool :=
  match row with
  | NEl _ [_; _; NEl _ []] => true
  | _ => false
  end.

(** The code units of a description other than its line breaks. *)
Definition without_newlines (d : jsstring) : jsstring :=
  filter (fun c => negb (c =? 10)) d.

(** The default the component falls back to for each field it reads on
    its own ([data.x || default]); the alias [experience] is read by the
    language detector only, after [experiences]. *)
Definition document_defaults : list (string * value) :=
  [ ("personal_info", VObj []); ("photo_path", VStr []);
    ("experiences", VArr []); ("educations", VArr []); ("skills", VArr []);
    ("certifications", VArr []); ("languages", VArr []);
    ("projects", VArr []); ("interests", VArr []);
    ("hobbies", VStr []); ("hobbies_text", VStr []);
    ("custom_sections", VArr []); ("profile_summary", VStr []);
    ("full_name", VStr []); ("title", VStr []); ("email", VStr []);
    ("phone", VStr []); ("location", VStr []);
    ("linkedin_url", VStr []) ]%string.

(** Two documents the component cannot tell apart: every field it reads
    has the same value in both once its default is applied. *)
Definition same_reading (d1 d2 : value) : Prop :=
  (forall name d, In (name, d) document_defaults ->
                  or_else (field d1 name) d = or_else (field d2 name) d)
  /\ or_else (or_else (field d1 "experiences") (field d1 "experience")) (VArr [])
     = or_else (or_else (field d2 "experiences") (field d2 "experience")) (VArr []).

(** The fields [buildPreviewData] does not copy, among those the
    component reads. *)
Definition preview_drops : list string :=
  [ "experience"; "hobbies"; "hobbies_text"; "custom_sections" ]%string.

(** An object without the properties of the given names. *)
Definition without_fields (names : list string) (props : list (jsstring * value))
  : list (jsstring * value) :=
  filter (fun kv => negb (existsb (fun name => str_eqb (js name) (fst kv)) names))
         props.

(** What the assignments of the normalisers come to: the properties [q]
    are the properties [p] but for the property [b], whose value is [v]. *)
Definition assigns (b : string) (v : value) (p q : list (jsstring * value)) : Prop :=
  field (VObj q) b = v
  /\ forall k, str_eqb k (js b) = false -> lookup k q = lookup k p.

(* ================================================================== *)
(** * Properties *)
(* ================================================================== *)

(** ** Strings *)

Lemma str_eqb_eq (a b : jsstring) : str_eqb a b = true <-> a = b.
Proof.
  revert b; induction a as [|x a IH]; intros [|y b]; simpl; split; try easy.
  - intros H. apply andb_true_iff in H as [Hx Ha].
    apply N.eqb_eq in Hx. apply IH in Ha. now subst.
  - intros H. injection H as -> ->. rewrite N.eqb_refl. simpl. now apply IH.
Qed.

Lemma startsWith_app (p r : jsstring) : startsWith (p ++ r) p = true.
Proof.
  induction p as [|x p IH]; simpl.
  - now destruct r.
  - now rewrite N.eqb_refl.
Qed.

Lemma startsWith_inv (s p : jsstring) :
  startsWith s p = true -> exists r, s = p ++ r.
Proof.
  revert s; induction p as [|x p IH]; intros s H.
  - now exists s.
  - destruct s as [|y s]; simpl in H; [discriminate|].
    apply andb_true_iff in H as [Hx Hp]. apply N.eqb_eq in Hx. subst y.
    destruct (IH _ Hp) as [r ->]. now exists r.
Qed.

Lemma includes_startsWith (s w : jsstring) :
  startsWith s w = true -> includes s w = true.
Proof. intros H. destruct s; cbn [includes]; now rewrite H. Qed.

Lemma includes_app (a w b : jsstring) : includes (a ++ w ++ b) w = true.
Proof.
  induction a as [|x a IH].
  - change ([] ++ w ++ b) with (w ++ b).
    apply includes_startsWith, startsWith_app.
  - simpl. rewrite IH. apply orb_true_r.
Qed.

Lemma includes_inv (s w : jsstring) :
  includes s w = true -> exists a b, s = a ++ w ++ b.
Proof.
  induction s as [|x s IH]; cbn [includes]; intros H.
  - rewrite orb_false_r in H. apply startsWith_inv in H as [r ->]. now exists [], r.
  - apply orb_true_iff in H as [H|H].
    + apply startsWith_inv in H as [r ->]. now exists [], r.
    + destruct (IH H) as (a & b & ->). now exists (x :: a), b.
Qed.

(** Containment is transitive: what occurs in a part occurs in the whole. *)
Lemma includes_trans (s p w : jsstring) :
  includes s p = true -> includes p w = true -> includes s w = true.
Proof.
  intros Hs Hp.
  apply includes_inv in Hs as (a & b & ->).
  apply includes_inv in Hp as (c & d & ->).
  replace (a ++ (c ++ w ++ d) ++ b) with ((a ++ c) ++ w ++ (d ++ b))
    by (now rewrite <- !app_assoc).
  apply includes_app.
Qed.



(** ** Language detection *)





(** A sample with two markers or more is German, with fewer English. *)
Lemma detectGerman_threshold (data : value) (s : jsstring) :
  german_sample data = Ok s ->
  detectGerman data = Ok (2 <=? score (toLowerCase s))%nat.
Proof. intros H. unfold detectGerman. now rewrite H. Qed.

Lemma score_ge_2 (sample w1 w2 : jsstring) :
  In w1 GERMAN_MARKERS -> In w2 GERMAN_MARKERS -> w1 <> w2 ->
  includes sample w1 = true -> includes sample w2 = true ->
  (2 <= score sample)%nat.
Proof.
  intros I1 I2 Hne H1 H2. unfold score, matched_markers.
  assert (F1 : In w1 (filter (fun w => includes sample w) GERMAN_MARKERS))
    by (apply filter_In; auto).
  assert (F2 : In w2 (filter (fun w => includes sample w) GERMAN_MARKERS))
    by (apply filter_In; auto).
  destruct (filter _ GERMAN_MARKERS) as [|a [|b l]]; simpl in *.
  - contradiction.
  - destruct F1 as [<-|[]], F2 as [<-|[]]. congruence.
  - lia.
Qed.

Lemma str_eqb_neq (a b : jsstring) : str_eqb a b = false <-> a <> b.
Proof.
  split.
  - intros H E. apply str_eqb_eq in E. congruence.
  - intros H. destruct (str_eqb a b) eqn:E; [|reflexivity].
    apply str_eqb_eq in E. contradiction.
Qed.

Lemma GERMAN_MARKERS_NoDup : NoDup GERMAN_MARKERS.
Proof.
  unfold GERMAN_MARKERS.
  repeat (constructor;
          [ intros H; vm_compute in H;
            repeat (destruct H as [H|H]; [discriminate H|]); exact H | ]).
  constructor.
Qed.


Lemma Ok_inj {A : Type} (a b : A) : Ok a = Ok b -> a = b.
Proof. intros H. now injection H. Qed.



(** C10 — The marker list has both "wurden" and "wurde", and matching is
    by containment: a sample in which "wurden" occurs matches both, so the
    document is German; when no other marker occurs, these two are all the
    matches. *)
Theorem C10_wurden_matches_two_markers (data : value) (s : jsstring) :
  german_sample data = Ok s ->
  includes (toLowerCase s) (js "wurden") = true ->
  In (js "wurden") GERMAN_MARKERS /\ In (js "wurde") GERMAN_MARKERS
  /\ includes (toLowerCase s) (js "wurde") = true
  /\ detectGerman data = Ok true
  /\ ((forall w, In w GERMAN_MARKERS -> w <> js "wurden" -> w <> js "wurde" ->
                 includes (toLowerCase s) w = false) ->
      matched_markers (toLowerCase s) = [js "wurden"; js "wurde"]
      /\ score (toLowerCase s) = 2%nat).
Proof.
  intros H Hn.
  assert (I1 : In (js "wurden") GERMAN_MARKERS) by (vm_compute; tauto).
  assert (I2 : In (js "wurde") GERMAN_MARKERS) by (vm_compute; tauto).
  assert (He : includes (toLowerCase s) (js "wurde") = true).
  { eapply includes_trans; [exact Hn|]. vm_compute. reflexivity. }
  split; [exact I1|]. split; [exact I2|]. split; [exact He|]. split.
  - rewrite (detectGerman_threshold _ _ H). f_equal. apply Nat.leb_le.
    apply (@score_ge_2 _ (js "wurden") (js "wurde")); auto.
    intros E. vm_compute in E. discriminate E.
  - intros Hno.
    assert (M : matched_markers (toLowerCase s) = [js "wurden"; js "wurde"]).
    { unfold matched_markers.
      rewrite (@filter_ext_in _ _
                 (fun w => str_eqb w (js "wurden") || str_eqb w (js "wurde"))).
      - vm_compute. reflexivity.
      - intros w Hw.
        destruct (str_eqb w (js "wurden")) eqn:E1.
        + apply str_eqb_eq in E1. now subst w.
        + destruct (str_eqb w (js "wurde")) eqn:E2.
          * apply str_eqb_eq in E2. now subst w.
          * apply Hno; [exact Hw| |]; now apply str_eqb_neq. }
    split; [exact M|]. unfold score. now rewrite M.
Qed.

(** A document whose only text is the title "wurden". *)
Lemma C10_wurden_matches_two_markers_witness :
  detectGerman (cv_document (js "wurden") [] [] []) = Ok true
  /\ matched_markers (toLowerCase (js "wurden  ")) = [js "wurden"; js "wurde"].
Proof.
  pose proof (@C10_wurden_matches_two_markers
                (cv_document (js "wurden") [] [] []) (js "wurden  ")
                ltac:(vm_compute; reflexivity) ltac:(vm_compute; reflexivity))
    as (_ & _ & _ & D & M).
  split; [exact D|].
  apply M. intros w Hw N1 N2.
  vm_compute in Hw.
  repeat (destruct Hw as [<-|Hw];
          [first [ now (vm_compute; reflexivity)
                 | exfalso; apply N1; vm_compute; reflexivity
                 | exfalso; apply N2; vm_compute; reflexivity ] |]).
  contradiction.
Defined.

(** ** Skill flattening *)

Lemma skill_name_total (s : value) : skill_name s = Ok (entry_name s).
Proof.
  destruct s as [| |b|z|s|l|props]; try reflexivity.
  unfold skill_name, entry_name, field, get_opt, get. cbn [is_string].
  destruct (lookup (js "name") props); reflexivity.
Qed.

Lemma mapM_total {A B : Type} (f : A -> result B) (g : A -> B) (l : list A) :
  (forall x, f x = Ok (g x)) -> mapM f l = Ok (map g l).
Proof.
  intros H. induction l as [|x l IH]; cbn [mapM map]; [reflexivity|].
  rewrite H, IH. reflexivity.
Qed.

Lemma skill_names_total (l : list value) :
  skill_names l = Ok (filter truthy (map entry_name l)).
Proof.
  unfold skill_names. now rewrite (mapM_total _ _ l skill_name_total).
Qed.

(** C4 — Skill flattening.  The three shapes of the specification give
    the same flat list; only the mapping gives a category grouping.  A
    sequence flattens to the names of its entries, falsy ones dropped. *)
Theorem C4_flattenSkills_three_shapes :
  let go_rust := [Str "Go"; Str "Rust"] in
  let by_category := obj [("Languages", VArr go_rust)]%string in
  flattenSkills (VArr go_rust) = Ok go_rust
  /\ flattenSkills (VArr [obj [("name", Str "Go")]; obj [("name", Str "Rust")]]%string)
     = Ok go_rust
  /\ flattenSkills by_category = Ok go_rust
  /\ getSkillCategories by_category = by_category
  /\ getSkillCategories (VArr go_rust) = VNull
  /\ getSkillCategories (VArr [obj [("name", Str "Go")]; obj [("name", Str "Rust")]]%string)
     = VNull
  /\ (forall items, flattenSkills (VArr items)
                    = Ok (filter truthy (map entry_name items))).
Proof.
  cbv zeta.
  do 6 (split; [vm_compute; reflexivity|]).
  intros items. unfold flattenSkills. cbn [truthy negb]. apply skill_names_total.
Qed.

(** ** Photo URL *)

Lemma resolvePhoto_uploads (env : option jsstring) (p : jsstring) :
  startsWith p (js "/uploads/") || startsWith p (js "uploads/") = true ->
  resolvePhoto env (VStr p) = Ok (VStr (API_BASE env ++ js "/" ++ strip_leading_slash p)).
Proof.
  intros H. unfold resolvePhoto.
  destruct p as [|c p]; [vm_compute in H; discriminate H|].
  cbn [truthy negb as_string bind]. now rewrite H.
Qed.

Lemma resolvePhoto_other (env : option jsstring) (p : jsstring) :
  p <> [] ->
  startsWith p (js "/uploads/") || startsWith p (js "uploads/") = false ->
  resolvePhoto env (VStr p) = Ok (VStr p).
Proof.
  intros Hp H. unfold resolvePhoto.
  destruct p as [|c p]; [contradiction|].
  cbn [truthy negb as_string bind]. now rewrite H.
Qed.

Lemma API_BASE_documented_setting :
  API_BASE None = js "http://localhost:8000"
  /\ API_BASE (Some (js "http://localhost:8000/api")) = js "http://localhost:8000".
Proof. split; vm_compute; reflexivity. Qed.

(** C5 — Photo URL resolution, at the API origin of the specification's
    own example.  [replace('/api', '')] removes the first occurrence of
    "/api", which in "http://api.example.com/api" is the one that starts at
    the second slash of "//api", not the trailing suffix; the photo path is
    appended to what is left. *)
Theorem C5_API_BASE_removes_first_occurrence :
  let env := Some (js "http://api.example.com/api") in
  API_BASE env = js "http:/.example.com/api"
  /\ API_BASE env <> js "http://api.example.com"
  /\ resolvePhoto env (Str "/uploads/photo.png")
     = Ok (Str "http:/.example.com/api/uploads/photo.png")
  /\ resolvePhoto env (Str "https://cdn.example.com/x.png")
     = Ok (Str "https://cdn.example.com/x.png").
Proof.
  cbv zeta.
  split; [vm_compute; reflexivity|].
  split; [intros E; vm_compute in E; discriminate E|].
  split; vm_compute; reflexivity.
Qed.

(** ** Property reads *)

Lemma prop_obj (props : list (jsstring * value)) (k : string) :
  mem_str (js k) Object_prototype = false ->
  prop (VObj props) k = Ok (field (VObj props) k).
Proof.
  intros H. unfold prop, get, field. rewrite H.
  destruct (lookup (js k) props); reflexivity.
Qed.


(** ** Date range of an experience entry *)

(** The cell both renderers build, for an entry with string dates: its text
    is the date range of the specification, with the label it was given. *)
Lemma exp_dates_text (sd ed : jsstring) (c : bool) (label : jsstring) :
  (let* cell := exp_dates (VStr label)
                  (obj [("startDate", VStr sd); ("endDate", VStr ed);
                        ("current", VBool c)]%string) in
   text_of (NEl "span" cell))
  = Ok (date_range_words sd ed c label).
Proof.
  unfold exp_dates, date_range_words.
  set (exp := obj _).
  change (prop exp "startDate") with (Ok (VStr sd)).
  change (prop exp "endDate") with (Ok (VStr ed)).
  change (prop exp "current") with (Ok (VBool c)).
  cbn [bind].
  destruct sd as [|s0 sd], ed as [|e0 ed], c; cbn; rewrite ?app_nil_r; reflexivity.
Qed.

(** The shared renderer passes the literal, whatever the language. *)
Lemma shared_experience_label (len i : nat) (exp : value) (row : node) :
  shared_experience len i exp = Ok row ->
  exists cell, exp_dates (Str "Present") exp = Ok cell.
Proof.
  unfold shared_experience. intros H.
  destruct (exp_role exp "Role"); try discriminate H. cbn [bind] in H.
  destruct (prop exp "company"); try discriminate H. cbn [bind] in H.
  destruct (prop exp "location"); try discriminate H. cbn [bind] in H.
  destruct (exp_dates (Str "Present") exp) as [cell| |]; try discriminate H.
  now exists cell.
Qed.

(** C1 — Date range of an experience entry, for a German résumé with a
    position held since 2022-01.  The clean layout ends the range with
    "Heute"; the four layouts that go through the shared renderer end it
    with "Present", the label of the other language. *)
Theorem C1_german_current_position_reads_Present :
  detectGerman german_cv = Ok true
  /\ page_text (CVPreview None german_cv (theme_of "clean"))
     = Ok (js "Your Name👤Profilverantwortlich für die Entwicklung und Leitung💼Berufserfahrung—2022-01 – Heute")
  /\ (forall layout, In layout ["classic"; "modern"; "executive"; "minimal"]%string ->
        page_text (CVPreview None german_cv (theme_of layout))
        = Ok (js "Your NameProfileverantwortlich für die Entwicklung und LeitungExperienceRole2022-01 – Present")).
Proof.
  split; [vm_compute; reflexivity|].
  split; [vm_compute; reflexivity|].
  intros layout [<-|[<-|[<-|[<-|[]]]]]; vm_compute; reflexivity.
Qed.

(** C3 — Section headings of the same German résumé.  The clean layout
    takes them from the German label set; the other four show "Profile" and
    "Experience". *)
Theorem C3_german_headings_only_in_clean :
  detectGerman german_cv = Ok true
  /\ page_titles (CVPreview None german_cv (theme_of "clean"))
     = Ok [VStr (Labels.profile LABELS_DE); VStr (Labels.experience LABELS_DE)]
  /\ (forall layout, In layout ["classic"; "modern"; "executive"; "minimal"]%string ->
        page_titles (CVPreview None german_cv (theme_of layout))
        = Ok [VStr (Labels.profile LABELS_EN); VStr (Labels.experience LABELS_EN)]).
Proof.
  split; [vm_compute; reflexivity|].
  split; [vm_compute; reflexivity|].
  intros layout [<-|[<-|[<-|[<-|[]]]]]; vm_compute; reflexivity.
Qed.

(** C6 — Skills given as a mapping with no category.  There is no skill to
    show, and the classic, modern and minimal layouts show no skills
    section; the clean and executive layouts show the heading over an empty
    container. *)
Theorem C6_empty_mapping_shows_skills_heading :
  let doc := obj [("skills", obj [])]%string in
  flattenSkills (obj []) = Ok []
  /\ (forall layout, In layout ["clean"; "executive"]%string ->
        page_titles (CVPreview None doc (theme_of layout)) = Ok [Str "Skills"])
  /\ page_text (CVPreview None doc (theme_of "clean")) = Ok (js "Your Name⚡Skills")
  /\ page_text (CVPreview None doc (theme_of "executive")) = Ok (js "Your NameSkills")
  /\ (forall layout, In layout ["classic"; "modern"; "minimal"]%string ->
        page_text (CVPreview None doc (theme_of layout)) = Ok (js "Your Name")).
Proof.
  cbv zeta.
  split; [vm_compute; reflexivity|].
  split; [intros layout [<-|[<-|[]]]; vm_compute; reflexivity|].
  split; [vm_compute; reflexivity|].
  split; [vm_compute; reflexivity|].
  intros layout [<-|[<-|[<-|[]]]]; vm_compute; reflexivity.
Qed.

(** ** Choice of the layout *)







(** ** Inversion of the monadic steps *)

(** Peel the successful steps off a hypothesis [let* x := r in ... = Ok _]. *)
Ltac bind_inv H :=
  repeat match type of H with
         | bind ?r _ = Ok _ =>
             let x := fresh "x" in
             let E := fresh "E" in
             destruct r as [x| |] eqn:E;
             [cbn [bind] in H | discriminate H | discriminate H]
         end.



(** ** Custom sections *)









(** The modern and executive layouts do not read the custom sections. *)
Lemma layout_modern_custom (e : locals) (cs : value) :
  layout_modern (set_customSections e cs) = layout_modern e.
Proof. reflexivity. Qed.

Lemma layout_executive_custom (e : locals) (cs : value) :
  layout_executive (set_customSections e cs) = layout_executive e.
Proof. reflexivity. Qed.

Lemma bind_Ok {A B : Type} (a : A) (f : A -> result B) : bind (Ok a) f = f a.
Proof. reflexivity. Qed.













(** ** A valid tree renders *)

Lemma rgba_string (c a : jsstring) : exists s, rgba (VStr c) a = Ok s.
Proof. eexists. reflexivity. Qed.



Lemma mapM_Forall {A B : Type} (f : A -> result B) (P : A -> Prop) (Q : B -> Prop)
    (l : list A) :
  (forall x, P x -> exists y, f x = Ok y /\ Q y) ->
  Forall P l -> exists ys, mapM f l = Ok ys /\ Forall Q ys.
Proof.
  intros Hf H. induction H as [|x l Hx Hl (ys & E & Hys)]; cbn [mapM].
  - exists []. now split.
  - destruct (Hf _ Hx) as (y & -> & Hy). cbn [bind]. rewrite E. cbn [bind].
    exists (y :: ys). split; [reflexivity | now constructor].
Qed.

Lemma forallb_Forall {A : Type} (p : A -> bool) (l : list A) :
  forallb p l = true <-> Forall (fun x => p x = true) l.
Proof.
  rewrite forallb_forall, Forall_forall. reflexivity.
Qed.






(** ** Entries of the expected shape render *)


















Lemma or_prop_obj (a : value) (props : list (jsstring * value)) (k : string) :
  mem_str (js k) Object_prototype = false ->
  or_prop a (VObj props) k = Ok (or_else a (field (VObj props) k)).
Proof.
  intros H. unfold or_prop, or_else.
  destruct (truthy a); [reflexivity | now apply prop_obj].
Qed.



















(** ** The shared sections *)



(** ** The sections of the layouts *)

































(** ** The constants of a document of the expected shape *)



















(** ** The empty document *)






(** * Colours *)

Lemma Some_inj {A : Type} (a b : A) : Some a = Some b -> a = b.
Proof. intros H. now injection H. Qed.

Lemma hex_digit_range (c : N) (v : Z) :
  hex_digit c = Some v ->
  (48 <= c <= 57 \/ 97 <= c <= 102 \/ 65 <= c <= 70) /\ (0 <= v <= 15)%Z.
Proof.
  unfold hex_digit. intros H.
  destruct (N.leb_spec 48 c), (N.leb_spec c 57); cbn [andb] in H;
    try (apply Some_inj in H; subst v; lia).
  all: destruct (N.leb_spec 97 c), (N.leb_spec c 102); cbn [andb] in H;
    try (apply Some_inj in H; subst v; lia).
  all: destruct (N.leb_spec 65 c), (N.leb_spec c 70); cbn [andb] in H;
    try (apply Some_inj in H; subst v; lia).
  all: discriminate H.
Qed.

Lemma hex_digit_plain (c : N) (v : Z) :
  hex_digit c = Some v ->
  is_space c = false /\ (c =? 45) = false /\ (c =? 43) = false
  /\ (c =? 120) = false /\ (c =? 88) = false.
Proof.
  intros H. apply hex_digit_range in H as [R _].
  split.
  - destruct (is_space c) eqn:E; [|reflexivity].
    unfold is_space in E.
    rewrite !orb_true_iff, !andb_true_iff, !N.leb_le, !N.eqb_eq in E. lia.
  - repeat split; apply N.eqb_neq; lia.
Qed.

Lemma parseInt16_two_digits (d1 d2 : N) (v1 v2 : Z) :
  hex_digit d1 = Some v1 -> hex_digit d2 = Some v2 ->
  parseInt16 [d1; d2] = Some (v1 * 16 + v2)%Z.
Proof.
  intros H1 H2.
  destruct (hex_digit_plain _ _ H1) as (S1 & M1 & P1 & _).
  destruct (hex_digit_plain _ _ H2) as (_ & _ & _ & X2 & X2').
  unfold parseInt16. cbn [drop_spaces]. rewrite S1, M1, P1.
  rewrite X2, X2'. cbn [orb]. rewrite andb_false_r.
  cbn [hex_prefix]. rewrite H1, H2. reflexivity.
Qed.

Lemma to_string_VStr (s : jsstring) : to_string (VStr s) = Ok s.
Proof. reflexivity. Qed.

(** X1 — A colour written as a marker and six hexadecimal digits (whatever
    follows them) becomes "rgba(R,G,B,a)" where each channel is the value
    of its two digits, between 0 and 255; the first code unit is skipped
    without being looked at. *)
Theorem rgba_six_hex_digits (c0 d1 d2 d3 d4 d5 d6 : N) (rest a : jsstring)
    (v1 v2 v3 v4 v5 v6 : Z) :
  hex_digit d1 = Some v1 -> hex_digit d2 = Some v2 ->
  hex_digit d3 = Some v3 -> hex_digit d4 = Some v4 ->
  hex_digit d5 = Some v5 -> hex_digit d6 = Some v6 ->
  rgba (VStr (c0 :: d1 :: d2 :: d3 :: d4 :: d5 :: d6 :: rest)) a
  = Ok (js "rgba(" ++ decimal (v1 * 16 + v2) ++ js ","
        ++ decimal (v3 * 16 + v4) ++ js ","
        ++ decimal (v5 * 16 + v6) ++ js "," ++ a ++ js ")")
  /\ (0 <= v1 * 16 + v2 <= 255)%Z
  /\ (0 <= v3 * 16 + v4 <= 255)%Z
  /\ (0 <= v5 * 16 + v6 <= 255)%Z.
Proof.
  intros H1 H2 H3 H4 H5 H6.
  split.
  - unfold rgba. cbn [slice_val slice firstn skipn].
    repeat (rewrite ?bind_Ok, ?to_string_VStr; cbv beta).
    rewrite (parseInt16_two_digits _ _ _ _ H1 H2).
    rewrite (parseInt16_two_digits _ _ _ _ H3 H4).
    rewrite (parseInt16_two_digits _ _ _ _ H5 H6).
    reflexivity.
  - apply hex_digit_range in H1 as [_ R1], H2 as [_ R2], H3 as [_ R3],
        H4 as [_ R4], H5 as [_ R5], H6 as [_ R6].
    lia.
Qed.

(** The default primary colour of the theme. *)
Lemma rgba_six_hex_digits_witness :
  rgba (Str "#1a1a1a") (js "0.3") = Ok (js "rgba(26,26,26,0.3)").
Proof.
  exact (proj1 (@rgba_six_hex_digits 35 49 97 49 97 49 97 [] (js "0.3")
                  1 10 1 10 1 10
                  eq_refl eq_refl eq_refl eq_refl eq_refl eq_refl)).
Defined.

(** X2 — A colour of five code units or fewer, such as the shorthand
    "#fff", has no digits left for the blue channel: the result names it
    "NaN". *)
Theorem rgba_short_colour (hex a : jsstring) :
  (List.length hex <= 5)%nat ->
  exists r g,
    rgba (VStr hex) a
    = Ok (js "rgba(" ++ r ++ js "," ++ g ++ js "," ++ js "NaN" ++ js ","
          ++ a ++ js ")").
Proof.
  intros H. unfold rgba. cbn [slice_val].
  repeat (rewrite ?bind_Ok, ?to_string_VStr; cbv beta).
  assert (E : slice 5 7 hex = []).
  { unfold slice. apply skipn_all2. rewrite length_firstn. lia. }
  rewrite E. eexists. eexists. reflexivity.
Qed.

Lemma rgba_short_colour_witness :
  exists r g,
    rgba (Str "#fff") (js "0.3")
    = Ok (js "rgba(" ++ r ++ js "," ++ g ++ js "," ++ js "NaN" ++ js ","
          ++ js "0.3" ++ js ")").
Proof.
  apply (@rgba_short_colour (js "#fff") (js "0.3")). vm_compute. lia.
Defined.

(** * Section titles *)

Lemma text_of_value (v : value) : text_of (NVal v) = child_text v.
Proof. reflexivity. Qed.

Lemma text_of_guard_icon (icon : value) (i : jsstring) :
  child_text icon = Ok i ->
  text_of (guard icon (NEl "span" [NVal icon])) = Ok i.
Proof.
  intros H. unfold guard. destruct (truthy icon).
  - cbn [text_of]. rewrite H, !bind_Ok. now rewrite app_nil_r.
  - cbn [text_of]. exact H.
Qed.

(** X3 — The text of a section title is its label, preceded by its icon in
    the badge and the line style (and in any style that is not "dot"); the
    dot style never shows the icon. *)
Theorem SectionTitle_text (label border style icon : value) (c l i : jsstring) :
  child_text label = Ok l -> child_text icon = Ok i ->
  exists n,
    SectionTitle label (VStr c) border style icon = Ok n
    /\ text_of n = Ok ((if is_str style (js "dot") then [] else i) ++ l).
Proof.
  intros Hl Hi. unfold SectionTitle.
  set (style' := match style with VUndef => Str "line" | _ => style end).
  assert (D : is_str style' (js "dot") = is_str style (js "dot"))
    by (destruct style; reflexivity).
  destruct (is_str style' (js "badge")) eqn:B.
  - assert (N : is_str style (js "dot") = false).
    { rewrite <- D. destruct style' as [| | | |s| |]; try reflexivity.
      cbn [is_str] in B |- *. apply str_eqb_eq in B. subst s. reflexivity. }
    rewrite N. eexists. split; [reflexivity|].
    change (text_of (NEl "div" [guard icon (NEl "span" [NVal icon]);
                                NEl "span" [NVal label]]))
      with (let* h := text_of (guard icon (NEl "span" [NVal icon])) in
            let* t := (let* h2 := (let* x := child_text label in
                                   let* y := Ok [] in Ok (x ++ y)) in
                       let* t2 := Ok [] in Ok (h2 ++ t2)) in
            Ok (h ++ t)).
    rewrite (text_of_guard_icon _ _ Hi), Hl, !bind_Ok. cbv beta.
    now rewrite !app_nil_r.
  - rewrite D. destruct (is_str style (js "dot")).
    + destruct (rgba_string c (js "0.3")) as [s ->]. rewrite bind_Ok.
      eexists. split; [reflexivity|].
      change (text_of (NEl "div" [NEl "div" []; NEl "h2" [NVal label]; NEl "div" []]))
        with (let* h := Ok [] in
              let* t := (let* h2 := (let* x := child_text label in
                                     let* y := Ok [] in Ok (x ++ y)) in
                         let* t2 := (let* h3 := Ok [] in
                                     let* t3 := Ok [] in Ok (h3 ++ t3)) in
                         Ok (h2 ++ t2)) in
              Ok (h ++ t)).
      rewrite Hl, !bind_Ok. cbv beta. cbn [app]. now rewrite !app_nil_r.
    + eexists. split; [reflexivity|].
      change (text_of (NEl "div" [NEl "div" [guard icon (NEl "span" [NVal icon]);
                                             NEl "h2" [NVal label]];
                                  NEl "div" []]))
        with (let* h := (let* g := text_of (guard icon (NEl "span" [NVal icon])) in
                         let* t1 := (let* h2 := (let* x := child_text label in
                                                 let* y := Ok [] in Ok (x ++ y)) in
                                     let* t2 := Ok [] in Ok (h2 ++ t2)) in
                         Ok (g ++ t1)) in
              let* t := (let* h3 := Ok [] in let* t3 := Ok [] in Ok (h3 ++ t3)) in
              Ok (h ++ t)).
      rewrite (text_of_guard_icon _ _ Hi), Hl, !bind_Ok. cbv beta.
      cbn [app]. now rewrite !app_nil_r.
Qed.

(** The profile heading of the clean layout, in the dot style. *)
Lemma SectionTitle_text_witness :
  exists n,
    SectionTitle (Str "Profile") (Str "#1a1a1a") (Str "rgba(26,26,26,0.3)")
      (Str "dot") (Str "👤") = Ok n
    /\ text_of n = Ok (js "Profile").
Proof.
  exact (@SectionTitle_text (Str "Profile") (Str "rgba(26,26,26,0.3)")
           (Str "dot") (Str "👤") (js "#1a1a1a") (js "Profile") (js "👤")
           eq_refl eq_refl).
Defined.

(** * Photo URL *)

(** X4 — Where the API origin is an absolute URL, resolving a photo is
    idempotent: a value once resolved resolves to itself. *)
Theorem resolvePhoto_idempotent (env : option jsstring) (photo v : value) :
  startsWith (API_BASE env) (js "http") = true ->
  resolvePhoto env photo = Ok v ->
  resolvePhoto env v = Ok v.
Proof.
  intros Hb H. unfold resolvePhoto in H.
  destruct (truthy photo) eqn:T; cbn [negb] in H.
  - destruct photo as [| | | |p| |]; try discriminate H.
    cbn [as_string] in H. rewrite bind_Ok in H.
    destruct (startsWith p (js "/uploads/") || startsWith p (js "uploads/")) eqn:C.
    + apply Ok_inj in H. subst v.
      apply startsWith_inv in Hb as [r Hr]. rewrite Hr.
      apply resolvePhoto_other; [discriminate | reflexivity].
    + apply Ok_inj in H. subst v.
      apply resolvePhoto_other; [|exact C].
      intros ->. discriminate T.
  - apply Ok_inj in H. subst v. reflexivity.
Qed.

Lemma resolvePhoto_idempotent_witness :
  resolvePhoto None (Str "http://localhost:8000/uploads/me.png")
  = Ok (Str "http://localhost:8000/uploads/me.png").
Proof.
  exact (@resolvePhoto_idempotent None (Str "/uploads/me.png")
           (Str "http://localhost:8000/uploads/me.png") eq_refl eq_refl).
Defined.

(** * Skills: the flat list and the editor's normalisation *)

Lemma category_names_total (v : value) :
  match v with VArr l => skill_names l | _ => Ok [] end = Ok (category_names v).
Proof. destruct v; try reflexivity. apply skill_names_total. Qed.

Lemma forallb_filter {A : Type} (p : A -> bool) (l : list A) :
  forallb p (filter p l) = true.
Proof.
  induction l as [|x l IH]; [reflexivity|]. cbn [filter].
  destruct (p x) eqn:E; [|exact IH]. cbn [forallb]. now rewrite E.
Qed.

Lemma forallb_flat_map {A B : Type} (p : B -> bool) (f : A -> list B) (l : list A) :
  (forall x, forallb p (f x) = true) -> forallb p (flat_map f l) = true.
Proof.
  intros H. induction l as [|x l IH]; [reflexivity|].
  cbn [flat_map]. now rewrite forallb_app, H, IH.
Qed.

Lemma flattenSkills_mapping (entries : list (jsstring * value)) :
  flattenSkills (VObj entries)
  = Ok (flat_map (fun kv => category_names (snd kv)) entries).
Proof.
  unfold flattenSkills. cbn [truthy negb].
  rewrite (mapM_total _ (fun kv => category_names (snd kv)) entries
             (fun kv => category_names_total (snd kv))).
  rewrite bind_Ok. now rewrite flat_map_concat_map.
Qed.

(** X5 — The flat skill list is computed for every value, whatever its
    shape, and never holds an empty name; a mapping contributes the names
    of its categories one category after the other, in the order of the
    mapping, a category that is not a sequence contributing none. *)
Theorem flattenSkills_by_category :
  (forall entries,
      flattenSkills (VObj entries)
      = Ok (flat_map (fun kv => category_names (snd kv)) entries))
  /\ (forall skills, exists names,
         flattenSkills skills = Ok names /\ forallb truthy names = true).
Proof.
  split; [exact flattenSkills_mapping|].
  intros skills. destruct skills as [| |b|z|s|l|entries];
    try (exists []; split; [|reflexivity]; unfold flattenSkills;
         now destruct (negb _)).
  - unfold flattenSkills. cbn [truthy negb]. rewrite skill_names_total.
    eexists. split; [reflexivity|]. apply forallb_filter.
  - rewrite flattenSkills_mapping. eexists. split; [reflexivity|].
    apply forallb_flat_map. intros [k v]. cbn [snd].
    destruct v; try reflexivity. apply forallb_filter.
Qed.

(** The first code unit of a number in decimal form is a digit or the
    minus sign. *)
Lemma decimal_head (z : Z) :
  exists c r, decimal z = c :: r /\ (c <= 57).
Proof.
  unfold decimal. destruct (Z.to_int z) as [u|u].
  - destruct u; cbn; eexists; eexists; (split; [reflexivity|]); cbv; discriminate.
  - cbn. eexists; eexists; (split; [reflexivity|]); cbv; discriminate.
Qed.

(** A name that begins with a letter is not an index. *)
Lemma lookup_indexed {A : Type} (f : A -> value) (c : N) (k : jsstring) (l : list A) :
  57 < c -> forall i, lookup (c :: k) (indexed f i l) = None.
Proof.
  intros Hc. induction l as [|x l IH]; intros i; [reflexivity|].
  cbn [indexed lookup].
  destruct (decimal_head (Z.of_nat i)) as (d & r & -> & Hd).
  cbn [str_eqb]. replace (c =? d) with false by (symmetry; apply N.eqb_neq; lia).
  cbn [andb]. apply IH.
Qed.

Lemma lookup_assign_same (k : jsstring) (v : value) (props : list (jsstring * value)) :
  lookup k (assign k v props) = Some v.
Proof.
  induction props as [|[k' x] props IH]; cbn [assign lookup].
  - assert (E : str_eqb k k = true) by now apply str_eqb_eq.
    now rewrite E.
  - destruct (str_eqb k k') eqn:E; cbn [lookup]; now rewrite E.
Qed.

Lemma lookup_assign_other (k k' : jsstring) (v : value)
    (props : list (jsstring * value)) :
  str_eqb k' k = false -> lookup k' (assign k v props) = lookup k' props.
Proof.
  intros H. induction props as [|[k0 x] props IH]; cbn [assign lookup].
  - now rewrite H.
  - destruct (str_eqb k k0) eqn:E; cbn [lookup]; [|now rewrite IH].
    apply str_eqb_eq in E. subst k0. now rewrite H.
Qed.

(** The name of an entry the editor has rewritten for a category. *)
Lemma entry_name_spread (item : value) (cat : jsstring) :
  is_string item = false ->
  entry_name (VObj (assign (js "category") (VStr cat) (spread item)))
  = entry_name item.
Proof.
  intros Hs. unfold entry_name, field.
  rewrite lookup_assign_other by reflexivity.
  destruct item as [| |b|z|s|l|props]; try reflexivity.
  - discriminate Hs.
  - cbn [spread].
    change (js "name") with (110 :: js "ame").
    now rewrite lookup_indexed by reflexivity.
Qed.

Lemma category_skills_names (cat : jsstring) (items : list value) :
  filter truthy (map entry_name (category_skills cat items))
  = filter truthy (map entry_name items).
Proof.
  induction items as [|item items IH]; [reflexivity|].
  unfold category_skills in *. cbn [flat_map].
  rewrite map_app, filter_app, IH. cbn [map filter].
  destruct item as [| |b|z|s|l|props]; try reflexivity.
  - destruct b; reflexivity.
  - destruct (truthy (VNum z)) eqn:T; [|reflexivity].
    cbn [map filter]. rewrite entry_name_spread by reflexivity. reflexivity.
  - destruct s; reflexivity.
  - cbn [truthy map filter]. rewrite entry_name_spread by reflexivity.
    reflexivity.
  - cbn [truthy map filter]. rewrite entry_name_spread by reflexivity.
    now destruct (truthy (entry_name (VObj props))).
Qed.

(** X6 — The editor's normalisation of the skills keeps the flat list of
    names the preview shows, for every value of the field, and leaves no
    category grouping: a normalised document is always rendered in the flat
    form. *)
Theorem normalizedSkills_keeps_names (skills : value) :
  flattenSkills (normalizedSkills skills) = flattenSkills skills
  /\ getSkillCategories (normalizedSkills skills) = VNull.
Proof.
  split; [|destruct skills; reflexivity].
  destruct skills as [| |b|z|s|l|entries]; try reflexivity.
  - now destruct b.
  - unfold flattenSkills at 2. destruct (negb (truthy (VNum z))); reflexivity.
  - now destruct s.
  - rewrite flattenSkills_mapping. cbn [normalizedSkills].
    unfold flattenSkills. cbn [truthy negb]. rewrite skill_names_total.
    f_equal.
    induction entries as [|[k v] entries IH]; [reflexivity|].
    cbn [flat_map snd fst]. rewrite map_app, filter_app, IH. f_equal.
    destruct v; try reflexivity.
    apply category_skills_names.
Qed.

(** * The editor: lists *)

Lemma filter_index_ext {A : Type} (f g : nat -> bool) (l : list A) :
  forall j, (forall x, (j <= x)%nat -> f x = g x) ->
            filter_index f j l = filter_index g j l.
Proof.
  induction l as [|x l IH]; intros j H; [reflexivity|].
  cbn [filter_index]. rewrite (H j) by lia.
  rewrite (IH (S j)) by (intros y Hy; apply H; lia). reflexivity.
Qed.

Lemma filter_index_all {A : Type} (f : nat -> bool) (l : list A) :
  forall j, (forall x, (j <= x)%nat -> f x = true) -> filter_index f j l = l.
Proof.
  induction l as [|x l IH]; intros j H; [reflexivity|].
  cbn [filter_index]. rewrite (H j) by lia.
  rewrite (IH (S j)) by (intros y Hy; apply H; lia). reflexivity.
Qed.

Lemma filter_index_skip {A : Type} (l : list A) :
  forall i j,
    filter_index (fun x => negb (Nat.eqb x (j + i))) j l
    = firstn i l ++ skipn (S i) l.
Proof.
  induction l as [|x l IH]; intros i j.
  - now destruct i.
  - cbn [filter_index]. destruct i as [|i].
    + rewrite Nat.add_0_r, Nat.eqb_refl. cbn [negb firstn skipn app].
      apply filter_index_all. intros y Hy.
      apply negb_true_iff, Nat.eqb_neq. lia.
    + replace (Nat.eqb j (j + S i)) with false
        by (symmetry; apply Nat.eqb_neq; lia).
      cbn [negb]. change (firstn (S i) (x :: l) ++ skipn (S (S i)) (x :: l))
        with (x :: (firstn i l ++ skipn (S i) l)). f_equal.
      rewrite <- (IH i (S j)). apply filter_index_ext.
      intros y _. now rewrite Nat.add_succ_r.
Qed.

(** X7 — Removing the entry at a position from a list of the editor (an
    experience, an education, a language, a skill, ...) leaves the entries
    before it and the entries after it, in their order; a position past the
    end removes nothing. *)
Theorem remove_index_removes_one {A : Type} (i : nat) (l : list A) :
  remove_index i l = firstn i l ++ skipn (S i) l
  /\ ((List.length l <= i)%nat -> remove_index i l = l).
Proof.
  assert (E : remove_index i l = firstn i l ++ skipn (S i) l)
    by apply (filter_index_skip l i 0).
  split; [exact E|].
  intros H. rewrite E, firstn_all2, skipn_all2 by lia. apply app_nil_r.
Qed.

Lemma remove_index_removes_one_witness :
  remove_index 3 [Str "Go"; Str "Rust"] = [Str "Go"; Str "Rust"].
Proof.
  apply (proj2 (@remove_index_removes_one value 3 [Str "Go"; Str "Rust"])).
  vm_compute. lia.
Defined.

(** * The editor: adding a skill *)

Lemma skillName_shown (sk n : value) (s : jsstring) :
  SkillsInput.skillName sk = Ok n -> s <> [] ->
  entry_name sk = VStr s -> is_str n s = true.
Proof.
  intros Hn Hs He. unfold SkillsInput.skillName in Hn.
  destruct sk as [| |b|z|t|l|props]; cbn [is_string] in Hn;
    try discriminate Hn;
    try (cbv in He; apply (f_equal (fun v => match v with VStr x => x | _ => [] end)) in He;
         congruence).
  - apply Ok_inj in Hn. subst n. cbn [entry_name] in He. rewrite He.
    cbn [is_str]. now apply str_eqb_eq.
  - unfold entry_name, field in He. unfold get in Hn.
    destruct (lookup (js "name") props) as [x|].
    + apply Ok_inj in Hn. subst n. unfold or_else in He.
      destruct (truthy x).
      * subst x. cbn [is_str]. now apply str_eqb_eq.
      * apply (f_equal (fun v => match v with VStr x => x | _ => [] end)) in He.
        cbn in He. congruence.
    + cbv in He.
      apply (f_equal (fun v => match v with VStr x => x | _ => [] end)) in He.
      congruence.
Qed.

Lemma includes_str_shown (s : jsstring) (skills : list value) :
  s <> [] -> forall ns,
  mapM SkillsInput.skillName skills = Ok ns ->
  includes_str ns s = false ->
  ~ In (VStr s) (filter truthy (map entry_name skills)).
Proof.
  intros Hs. induction skills as [|sk skills IH]; intros ns H Hi F.
  - contradiction.
  - cbn [mapM] in H. bind_inv H. apply Ok_inj in H. subst ns.
    cbn [includes_str existsb] in Hi. apply orb_false_elim in Hi as [H1 H2].
    cbn [map filter] in F.
    destruct (truthy (entry_name sk)).
    + destruct F as [F|F].
      * rewrite (skillName_shown _ _ _ E Hs F) in H1. discriminate H1.
      * exact (IH _ eq_refl H2 F).
    + exact (IH _ eq_refl H2 F).
Qed.

(** X8 — When the skills input passes a new list on, the input was not
    blank, the preview did not already show the trimmed name, and the
    preview of the new list is the old flat list with that name added last:
    adding never makes the preview show a name twice. *)
Theorem SkillsInput_add_appends (skills : list value) (input : jsstring)
    (skills' : list value) :
  SkillsInput.add skills input = Ok (Some skills') ->
  trim input <> []
  /\ exists names,
       flattenSkills (VArr skills) = Ok names
       /\ ~ In (VStr (trim input)) names
       /\ flattenSkills (VArr skills') = Ok (names ++ [VStr (trim input)]).
Proof.
  unfold SkillsInput.add. intros H.
  destruct (trim input) as [|c s] eqn:Et; [discriminate H|].
  cbn [truthy] in H. bind_inv H. apply Ok_inj in H.
  destruct (includes_str x (c :: s)) eqn:I; [discriminate H|].
  apply (f_equal (fun o => match o with Some l => l | None => [] end)) in H.
  subst skills'.
  split; [discriminate|].
  exists (filter truthy (map entry_name skills)).
  unfold flattenSkills. cbn [truthy negb]. rewrite !skill_names_total.
  split; [reflexivity|]. split.
  - apply (includes_str_shown (c :: s) skills ltac:(discriminate) x E I).
  - now rewrite map_app, filter_app.
Qed.

Lemma SkillsInput_add_appends_witness :
  exists names,
    flattenSkills (VArr [Str "Go"]) = Ok names
    /\ ~ In (Str "Rust") names
    /\ flattenSkills (VArr [Str "Go";
                            obj [("name", Str "Rust"); ("level", VStr []);
                                 ("category", VStr [])]%string])
       = Ok (names ++ [Str "Rust"]).
Proof.
  exact (proj2 (@SkillsInput_add_appends [Str "Go"] (js "  Rust ") _ eq_refl)).
Defined.

(** * The editor: normalisation of the loaded entries *)

Lemma field_assign_same (k : string) (v : value) (p : list (jsstring * value)) :
  field (VObj (assign (js k) v p)) k = v.
Proof. unfold field. now rewrite lookup_assign_same. Qed.

Lemma field_lookup (p q : list (jsstring * value)) (k : string) :
  lookup (js k) q = lookup (js k) p -> field (VObj q) k = field (VObj p) k.
Proof. intros H. unfold field. now rewrite H. Qed.

Lemma assigns_assign (b : string) (v : value) (p : list (jsstring * value)) :
  assigns b v p (assign (js b) v p).
Proof.
  split; [apply field_assign_same|].
  intros k H. now apply lookup_assign_other.
Qed.

Lemma assigns_keep (b : string) (p : list (jsstring * value)) :
  assigns b (field (VObj p) b) p p.
Proof. split; [reflexivity | now intros]. Qed.

Lemma fill_from_spec (a b : string) (p : list (jsstring * value)) :
  mem_str (js a) Object_prototype = false ->
  mem_str (js b) Object_prototype = false ->
  exists q,
    fill_from a b (VObj p) = Ok (VObj q)
    /\ assigns b (if truthy (field (VObj p) a) && negb (truthy (field (VObj p) b))
                  then field (VObj p) a else field (VObj p) b) p q.
Proof.
  intros Ha Hb. unfold fill_from. rewrite (prop_obj p a Ha), bind_Ok.
  destruct (truthy (field (VObj p) a)).
  - rewrite (prop_obj p b Hb), bind_Ok.
    destruct (truthy (field (VObj p) b)); cbn [andb negb].
    + exists p. split; [reflexivity | apply assigns_keep].
    + eexists. split; [reflexivity | apply assigns_assign].
  - exists p. split; [reflexivity | apply assigns_keep].
Qed.

Lemma fill_missing_spec (b a : string) (p : list (jsstring * value)) :
  mem_str (js a) Object_prototype = false ->
  mem_str (js b) Object_prototype = false ->
  exists q,
    fill_missing b a (VObj p) = Ok (VObj q)
    /\ assigns b (first_truthy [field (VObj p) b; field (VObj p) a]
                               (field (VObj p) b)) p q.
Proof.
  intros Ha Hb. unfold fill_missing. rewrite (prop_obj p b Hb), bind_Ok.
  cbn [first_truthy].
  destruct (truthy (field (VObj p) b)).
  - exists p. split; [reflexivity | apply assigns_keep].
  - rewrite (prop_obj p a Ha), bind_Ok.
    destruct (truthy (field (VObj p) a)).
    + eexists. split; [reflexivity | apply assigns_assign].
    + exists p. split; [reflexivity | apply assigns_keep].
Qed.

Lemma fill_date_spec (b a1 a2 : string) (p : list (jsstring * value)) :
  mem_str (js a1) Object_prototype = false ->
  mem_str (js a2) Object_prototype = false ->
  mem_str (js b) Object_prototype = false ->
  exists q,
    fill_date b a1 a2 (VObj p) = Ok (VObj q)
    /\ assigns b (first_truthy [field (VObj p) b; field (VObj p) a1;
                                field (VObj p) a2] (VStr [])) p q.
Proof.
  intros H1 H2 Hb. unfold fill_date. rewrite (prop_obj p b Hb), bind_Ok.
  cbn [first_truthy].
  destruct (truthy (field (VObj p) b)).
  - exists p. split; [reflexivity | apply assigns_keep].
  - rewrite (prop_obj p a1 H1), bind_Ok.
    destruct (truthy (field (VObj p) a1)).
    + eexists. split; [reflexivity | apply assigns_assign].
    + rewrite (prop_obj p a2 H2), bind_Ok.
      destruct (truthy (field (VObj p) a2));
        (eexists; split; [reflexivity | apply assigns_assign]).
Qed.

(** A field another assignment has left alone. *)
Lemma assigns_other (b k : string) (v : value) (p q : list (jsstring * value)) :
  assigns b v p q -> str_eqb (js k) (js b) = false ->
  field (VObj q) k = field (VObj p) k.
Proof. intros [_ H] Hk. apply field_lookup. now apply H. Qed.

Ltac other_field H :=
  rewrite (assigns_other _ _ _ _ _ H) by reflexivity.

Ltac other_field_in H G :=
  rewrite (assigns_other _ _ _ _ _ H) in G by reflexivity.

Lemma normalizeExperience_steps (props : list (jsstring * value)) :
  let exp := VObj props in
  exists n,
    normalizeExperience exp = Ok (VObj n)
    /\ field (VObj n) "role"
       = first_truthy [field exp "role"; field exp "position"; field exp "job_title"]
                      (field exp "role")
    /\ field (VObj n) "position"
       = first_truthy [field exp "position"; field exp "role"; field exp "job_title"]
                      (field exp "position")
    /\ field (VObj n) "startDate"
       = first_truthy [field exp "startDate"; field exp "start_date"]
                      (field exp "startDate")
    /\ field (VObj n) "endDate"
       = first_truthy [field exp "endDate"; field exp "end_date"]
                      (field exp "endDate")
    /\ (forall k,
           mem_str k (map js ["role"; "position"; "startDate"; "endDate"]%string)
           = false ->
           lookup k n = lookup k props).
Proof.
  intros exp. unfold exp, normalizeExperience. cbn [is_object spread].
  destruct (fill_from_spec "role" "position" props eq_refl eq_refl)
    as (p1 & -> & A1). rewrite bind_Ok.
  destruct (fill_from_spec "position" "role" p1 eq_refl eq_refl)
    as (p2 & -> & A2). rewrite bind_Ok.
  rewrite (prop_obj p2 "job_title" eq_refl), bind_Ok.
  assert (S3 : exists p3 p4,
             (if truthy (field (VObj p2) "job_title")
              then
                let* position := prop (VObj p2) "position" in
                if truthy position then Ok (VObj p2)
                else Ok (set_prop (set_prop (VObj p2) "position"
                                            (field (VObj p2) "job_title"))
                                  "role" (field (VObj p2) "job_title"))
              else Ok (VObj p2)) = Ok (VObj p4)
             /\ assigns "position"
                  (if truthy (field (VObj p2) "job_title")
                      && negb (truthy (field (VObj p2) "position"))
                   then field (VObj p2) "job_title" else field (VObj p2) "position")
                  p2 p3
             /\ assigns "role"
                  (if truthy (field (VObj p2) "job_title")
                      && negb (truthy (field (VObj p2) "position"))
                   then field (VObj p2) "job_title" else field (VObj p2) "role")
                  p3 p4).
  { destruct (truthy (field (VObj p2) "job_title")).
    - rewrite (prop_obj p2 "position" eq_refl), bind_Ok.
      destruct (truthy (field (VObj p2) "position")); cbn [andb negb].
      + exists p2, p2. split; [reflexivity|].
        split; apply assigns_keep.
      + eexists. eexists. split; [reflexivity|].
        split; [apply assigns_assign|].
        cbn [set_prop]. apply assigns_assign.
    - exists p2, p2. split; [reflexivity|]. split; apply assigns_keep. }
  destruct S3 as (p3 & p4 & -> & A3 & A4). rewrite bind_Ok.
  destruct (fill_missing_spec "startDate" "start_date" p4 eq_refl eq_refl)
    as (p5 & -> & A5). rewrite bind_Ok.
  destruct (fill_missing_spec "endDate" "end_date" p5 eq_refl eq_refl)
    as (p6 & -> & A6). rewrite bind_Ok.
  exists p6. split; [reflexivity|].
  (* the fields of the entry, step by step *)
  pose proof (proj1 A1) as P1. pose proof (proj1 A2) as R2.
  pose proof (proj1 A3) as P3. pose proof (proj1 A4) as R4.
  pose proof (proj1 A5) as S5. pose proof (proj1 A6) as E6.
  assert (R1 : field (VObj p1) "role" = field (VObj props) "role")
    by (now other_field A1).
  assert (J1 : field (VObj p1) "job_title" = field (VObj props) "job_title")
    by (now other_field A1).
  assert (P2 : field (VObj p2) "position" = field (VObj p1) "position")
    by (now other_field A2).
  assert (J2 : field (VObj p2) "job_title" = field (VObj props) "job_title")
    by (now other_field A2).
  assert (R3 : field (VObj p3) "role" = field (VObj p2) "role")
    by (now other_field A3).
  assert (P4 : field (VObj p4) "position" = field (VObj p3) "position")
    by (now other_field A4).
  rewrite R1, P1 in R2. rewrite P1 in P2.
  rewrite J2, P2 in P3. rewrite J2, P2, R2 in R4. rewrite P3 in P4.
  set (r := field (VObj props) "role") in *.
  set (p := field (VObj props) "position") in *.
  set (j := field (VObj props) "job_title") in *.
  split; [|split; [|split; [|split]]].
  - other_field A6. other_field A5. rewrite R4.
    cbn [first_truthy].
    destruct (truthy r) eqn:Tr, (truthy p) eqn:Tp, (truthy j) eqn:Tj;
      cbn [andb negb]; rewrite ?Tr, ?Tp, ?Tj; cbn [andb negb];
      rewrite ?Tr, ?Tp, ?Tj; reflexivity.
  - other_field A6. other_field A5. rewrite P4.
    cbn [first_truthy].
    destruct (truthy r) eqn:Tr, (truthy p) eqn:Tp, (truthy j) eqn:Tj;
      cbn [andb negb]; rewrite ?Tr, ?Tp, ?Tj; cbn [andb negb];
      rewrite ?Tr, ?Tp, ?Tj; reflexivity.
  - other_field A6. rewrite S5.
    repeat first [other_field A4 | other_field A3 | other_field A2 | other_field A1].
    reflexivity.
  - rewrite E6.
    repeat first [other_field A5 | other_field A4 | other_field A3
                 | other_field A2 | other_field A1].
    reflexivity.
  - intros k Hk. cbn [mem_str existsb map] in Hk.
    apply orb_false_elim in Hk as [K1 Hk].
    apply orb_false_elim in Hk as [K2 Hk].
    apply orb_false_elim in Hk as [K3 Hk].
    apply orb_false_elim in Hk as [K4 _].
    rewrite (proj2 A6 k K4), (proj2 A5 k K3), (proj2 A4 k K1), (proj2 A3 k K2),
      (proj2 A2 k K1), (proj2 A1 k K2).
    reflexivity.
Qed.

(** X9 — What the editor's normalisation makes of an experience entry,
    field by field: the role is the first of role, position and job title
    that is set, the position the first of position, role and job title,
    the start (end) date the first of [startDate] and [start_date]
    ([endDate] and [end_date]); a field with nothing to take its value
    from is left as it was, and no other property is touched. *)
Theorem normalizeExperience_fields (props : list (jsstring * value)) :
  let exp := VObj props in
  exists n,
    normalizeExperience exp = Ok (VObj n)
    /\ field (VObj n) "role"
       = first_truthy [field exp "role"; field exp "position"; field exp "job_title"]
                      (field exp "role")
    /\ field (VObj n) "position"
       = first_truthy [field exp "position"; field exp "role"; field exp "job_title"]
                      (field exp "position")
    /\ field (VObj n) "startDate"
       = first_truthy [field exp "startDate"; field exp "start_date"]
                      (field exp "startDate")
    /\ field (VObj n) "endDate"
       = first_truthy [field exp "endDate"; field exp "end_date"]
                      (field exp "endDate")
    /\ (forall k,
           mem_str k (map js ["role"; "position"; "startDate"; "endDate"]%string)
           = false ->
           lookup k n = lookup k props).
Proof. exact (normalizeExperience_steps props). Qed.

Lemma fill_from_noop (a b : string) (p : list (jsstring * value)) :
  mem_str (js a) Object_prototype = false ->
  mem_str (js b) Object_prototype = false ->
  truthy (field (VObj p) a) && negb (truthy (field (VObj p) b)) = false ->
  fill_from a b (VObj p) = Ok (VObj p).
Proof.
  intros Ha Hb H. unfold fill_from. rewrite (prop_obj p a Ha), bind_Ok.
  destruct (truthy (field (VObj p) a)); [|reflexivity].
  rewrite (prop_obj p b Hb), bind_Ok.
  destruct (truthy (field (VObj p) b)); [reflexivity | discriminate H].
Qed.

Lemma fill_missing_noop (b a : string) (p : list (jsstring * value)) :
  mem_str (js a) Object_prototype = false ->
  mem_str (js b) Object_prototype = false ->
  truthy (field (VObj p) b) || negb (truthy (field (VObj p) a)) = true ->
  fill_missing b a (VObj p) = Ok (VObj p).
Proof.
  intros Ha Hb H. unfold fill_missing. rewrite (prop_obj p b Hb), bind_Ok.
  destruct (truthy (field (VObj p) b)); [reflexivity|].
  rewrite (prop_obj p a Ha), bind_Ok.
  destruct (truthy (field (VObj p) a)); [discriminate H | reflexivity].
Qed.

Lemma exp_role_obj (p : list (jsstring * value)) (fallback : string) :
  exp_role (VObj p) fallback
  = Ok (first_truthy [field (VObj p) "role"; field (VObj p) "position";
                      field (VObj p) "job_title"] (Str fallback)).
Proof.
  unfold exp_role.
  rewrite (prop_obj p "role" eq_refl), bind_Ok.
  rewrite (or_prop_obj _ p "position" eq_refl), bind_Ok.
  rewrite (or_prop_obj _ p "job_title" eq_refl), bind_Ok.
  unfold or_else. cbn [first_truthy].
  destruct (truthy (field (VObj p) "role")) eqn:Tr; rewrite ?Tr.
  - reflexivity.
  - destruct (truthy (field (VObj p) "position")) eqn:Tp; rewrite ?Tp; reflexivity.
Qed.

Lemma normalizeExperience_object (props : list (jsstring * value)) :
  exists n,
    normalizeExperience (VObj props) = Ok (VObj n)
    /\ (forall fallback, exp_role (VObj n) fallback = exp_role (VObj props) fallback)
    /\ normalizeExperience (VObj n) = Ok (VObj n).
Proof.
  destruct (normalizeExperience_steps props) as (n & Hn & R & P & S & E & O).
  exists n. split; [exact Hn|].
  assert (J : field (VObj n) "job_title" = field (VObj props) "job_title")
    by (apply field_lookup, O; reflexivity).
  assert (S' : field (VObj n) "start_date" = field (VObj props) "start_date")
    by (apply field_lookup, O; reflexivity).
  assert (E' : field (VObj n) "end_date" = field (VObj props) "end_date")
    by (apply field_lookup, O; reflexivity).
  cbn [first_truthy] in R, P, S, E.
  split.
  - intros fallback. rewrite !exp_role_obj. cbn [first_truthy].
    rewrite R, P, J.
    destruct (truthy (field (VObj props) "role")) eqn:Tr;
      destruct (truthy (field (VObj props) "position")) eqn:Tp;
      destruct (truthy (field (VObj props) "job_title")) eqn:Tj;
      rewrite ?Tr, ?Tp, ?Tj; reflexivity.
  - unfold normalizeExperience. cbn [is_object spread].
    rewrite fill_from_noop, bind_Ok; try reflexivity.
    rewrite fill_from_noop, bind_Ok; try reflexivity.
    rewrite (prop_obj n "job_title" eq_refl), bind_Ok.
    replace (if truthy (field (VObj n) "job_title")
             then
               let* position := prop (VObj n) "position" in
               if truthy position then Ok (VObj n)
               else Ok (set_prop (set_prop (VObj n) "position"
                                           (field (VObj n) "job_title"))
                                 "role" (field (VObj n) "job_title"))
             else Ok (VObj n)) with (Ok (VObj n)).
    + rewrite bind_Ok.
      rewrite fill_missing_noop, bind_Ok; try reflexivity.
      * rewrite fill_missing_noop, bind_Ok; try reflexivity.
        rewrite E, E'.
        destruct (truthy (field (VObj props) "endDate")) eqn:Te; rewrite ?Te;
          [reflexivity|].
        destruct (truthy (field (VObj props) "end_date")) eqn:Te'; rewrite ?Te', ?Te;
          reflexivity.
      * rewrite S, S'.
        destruct (truthy (field (VObj props) "startDate")) eqn:Ts; rewrite ?Ts;
          [reflexivity|].
        destruct (truthy (field (VObj props) "start_date")) eqn:Ts'; rewrite ?Ts', ?Ts;
          reflexivity.
    + rewrite J.
      destruct (truthy (field (VObj props) "job_title")) eqn:Tj; [|reflexivity].
      rewrite (prop_obj n "position" eq_refl), bind_Ok. rewrite P.
      destruct (truthy (field (VObj props) "position")) eqn:Tp; rewrite ?Tp;
        [reflexivity|].
      destruct (truthy (field (VObj props) "role")) eqn:Tr; rewrite ?Tr, ?Tj;
        reflexivity.
    + rewrite R, P.
      destruct (truthy (field (VObj props) "role")) eqn:Tr;
        destruct (truthy (field (VObj props) "position")) eqn:Tp;
        destruct (truthy (field (VObj props) "job_title")) eqn:Tj;
        rewrite ?Tr, ?Tp, ?Tj; reflexivity.
    + rewrite R, P.
      destruct (truthy (field (VObj props) "role")) eqn:Tr;
        destruct (truthy (field (VObj props) "position")) eqn:Tp;
        destruct (truthy (field (VObj props) "job_title")) eqn:Tj;
        rewrite ?Tr, ?Tp, ?Tj; reflexivity.
Qed.

Lemma field_indexed {A : Type} (f : A -> value) (l : list A) (c : N) (k : string) :
  57 < c -> (exists r, js k = c :: r) ->
  field (VObj (indexed f 0 l)) k = VUndef.
Proof.
  intros Hc [r Hr]. unfold field. rewrite Hr.
  now rewrite lookup_indexed.
Qed.

(** X10 — Normalising an experience entry, whatever its value, does not
    change the role the preview shows for it, and normalising a second time
    changes nothing. *)
Theorem normalizeExperience_keeps_role (exp : value) :
  exists n,
    normalizeExperience exp = Ok n
    /\ (forall fallback, exp_role n fallback = exp_role exp fallback)
    /\ normalizeExperience n = Ok n.
Proof.
  destruct exp as [| |b|z|s|items|props];
    try (eexists; split; [reflexivity|]; split; reflexivity).
  - destruct (normalizeExperience_object (indexed (fun x => x) 0 items))
      as (n & Hn & Hr & Hi).
    exists (VObj n). split; [exact Hn|]. split; [|exact Hi].
    intros fallback. rewrite Hr, exp_role_obj.
    rewrite (field_indexed _ items 114 "role") by (try reflexivity; now eexists).
    rewrite (field_indexed _ items 112 "position") by (try reflexivity; now eexists).
    rewrite (field_indexed _ items 106 "job_title") by (try reflexivity; now eexists).
    reflexivity.
  - destruct (normalizeExperience_object props) as (n & Hn & Hr & Hi).
    exists (VObj n). auto.
Qed.

(** X11 — What the editor's normalisation makes of an education entry: the
    institution is the first of [institution] and [institution_name] that
    is set, the field the first of [field] and [field_of_study], and the
    start (end) date the first of [startDate], [start_date] and
    [start_year] ([endDate], [end_date], [end_year]) — the empty string,
    never an absent value, when none is set; no other property is
    touched. *)
Theorem normalizeEducation_fields (props : list (jsstring * value)) :
  let edu := VObj props in
  exists n,
    normalizeEducation edu = Ok (VObj n)
    /\ field (VObj n) "institution"
       = first_truthy [field edu "institution"; field edu "institution_name"]
                      (field edu "institution")
    /\ field (VObj n) "field"
       = first_truthy [field edu "field"; field edu "field_of_study"]
                      (field edu "field")
    /\ field (VObj n) "startDate"
       = first_truthy [field edu "startDate"; field edu "start_date";
                       field edu "start_year"] (VStr [])
    /\ field (VObj n) "endDate"
       = first_truthy [field edu "endDate"; field edu "end_date";
                       field edu "end_year"] (VStr [])
    /\ (forall k,
           mem_str k (map js ["institution"; "field"; "startDate"; "endDate"]%string)
           = false ->
           lookup k n = lookup k props).
Proof.
  intros edu. unfold edu, normalizeEducation. cbn [is_object spread].
  destruct (fill_missing_spec "institution" "institution_name" props eq_refl eq_refl)
    as (p1 & -> & A1). rewrite bind_Ok.
  destruct (fill_missing_spec "field" "field_of_study" p1 eq_refl eq_refl)
    as (p2 & -> & A2). rewrite bind_Ok.
  destruct (fill_date_spec "startDate" "start_date" "start_year" p2
              eq_refl eq_refl eq_refl) as (p3 & -> & A3). rewrite bind_Ok.
  destruct (fill_date_spec "endDate" "end_date" "end_year" p3
              eq_refl eq_refl eq_refl) as (p4 & -> & A4). rewrite bind_Ok.
  exists p4. split; [reflexivity|].
  pose proof (proj1 A1) as I1. pose proof (proj1 A2) as F2.
  pose proof (proj1 A3) as S3. pose proof (proj1 A4) as E4.
  split; [|split; [|split; [|split]]].
  - other_field A4. other_field A3. other_field A2. exact I1.
  - other_field A4. other_field A3. rewrite F2.
    repeat other_field A1. reflexivity.
  - other_field A4. rewrite S3.
    repeat first [other_field A2 | other_field A1]. reflexivity.
  - rewrite E4.
    repeat first [other_field A3 | other_field A2 | other_field A1]. reflexivity.
  - intros k Hk. cbn [mem_str existsb map] in Hk.
    apply orb_false_elim in Hk as [K1 Hk].
    apply orb_false_elim in Hk as [K2 Hk].
    apply orb_false_elim in Hk as [K3 Hk].
    apply orb_false_elim in Hk as [K4 _].
    rewrite (proj2 A4 k K4), (proj2 A3 k K3), (proj2 A2 k K2), (proj2 A1 k K1).
    reflexivity.
Qed.

(** * The editor: editing an experience entry *)

Lemma updated_experience_sync (x : value) (name : jsstring) (val : value) :
  name = js "position" \/ name = js "role" ->
  exists q,
    updated_experience x name val = VObj q
    /\ field (VObj q) "role" = val /\ field (VObj q) "position" = val.
Proof.
  intros [-> | ->]; unfold updated_experience.
  - change (str_eqb (js "position") (js "position")) with true.
    change (str_eqb (js "position") (js "role")) with false.
    cbv iota. cbn [set_prop]. eexists. split; [reflexivity|].
    split; [apply field_assign_same|].
    unfold field. rewrite lookup_assign_other by reflexivity.
    now rewrite lookup_assign_same.
  - change (str_eqb (js "role") (js "position")) with false.
    change (str_eqb (js "role") (js "role")) with true.
    cbv iota. cbn [set_prop]. eexists. split; [reflexivity|].
    split; [|apply field_assign_same].
    unfold field. rewrite lookup_assign_other by reflexivity.
    now rewrite lookup_assign_same.
Qed.

(** X12 — Editing the position or the role of an experience entry writes
    the value to both properties of that entry, so a value that is set is
    the role the preview shows for it; the list keeps its length and every
    other entry. *)
Theorem updateExp_syncs_role_and_position (experiences : list value) (i : nat)
    (name : jsstring) (val : value) (edited : list value) :
  updateExp experiences i name val = Ok edited ->
  name = js "position" \/ name = js "role" ->
  List.length edited = List.length experiences
  /\ (forall j, j <> i -> nth_error edited j = nth_error experiences j)
  /\ exists entry,
       nth_error edited i = Some entry
       /\ prop entry "role" = Ok val
       /\ prop entry "position" = Ok val
       /\ (truthy val = true ->
           forall fallback, exp_role entry fallback = Ok val).
Proof.
  intros H Hn. revert i edited H.
  induction experiences as [|x l IH]; intros i edited H; [destruct i; discriminate H|].
  destruct i as [|i]; cbn [updateExp] in H.
  - apply Ok_inj in H. subst edited.
    split; [reflexivity|]. split; [intros [|j] Hj; [contradiction | reflexivity]|].
    destruct (updated_experience_sync x name val Hn) as (q & -> & R & P).
    exists (VObj q). split; [reflexivity|].
    rewrite (prop_obj q "role" eq_refl), (prop_obj q "position" eq_refl), R, P.
    split; [reflexivity|]. split; [reflexivity|].
    intros T fallback. rewrite exp_role_obj, R. cbn [first_truthy].
    now rewrite T.
  - bind_inv H. apply Ok_inj in H. subst edited.
    destruct (IH i x0 E) as (L & O & entry & N & F).
    split; [cbn [List.length]; now rewrite L|].
    split.
    + intros [|j] Hj; [reflexivity|]. cbn [nth_error]. apply O. congruence.
    + exists entry. split; [exact N | exact F].
Qed.

Lemma updateExp_syncs_role_and_position_witness :
  exists entry,
    nth_error [updated_experience (obj [("company", Str "ACME")]%string)
                 (js "position") (Str "Engineer")] 0 = Some entry
    /\ prop entry "role" = Ok (Str "Engineer").
Proof.
  destruct (@updateExp_syncs_role_and_position
              [obj [("company", Str "ACME")]%string] 0 (js "position")
              (Str "Engineer") _ eq_refl (or_introl eq_refl))
    as (_ & _ & entry & N & R & _).
  exists entry. split; [exact N | exact R].
Defined.

(** * The shared experience renderer: dividers *)

Lemma shared_experience_divider (len i : nat) (exp : value) (row : node) :
  shared_experience len i exp = Ok row ->
  has_divider row = (Z.of_nat i <? Z.of_nat len - 1)%Z.
Proof.
  unfold shared_experience. intros H. bind_inv H.
  apply Ok_inj in H. subst row.
  now destruct (Z.of_nat i <? Z.of_nat len - 1)%Z.
Qed.

Lemma mapMi_dividers (len : nat) (items : list value) :
  forall i rows,
    mapMi (shared_experience len) i items = Ok rows ->
    map has_divider rows
    = map (fun k => (Z.of_nat k <? Z.of_nat len - 1)%Z) (seq i (List.length items)).
Proof.
  induction items as [|x items IH]; intros i rows H; cbn [mapMi] in H.
  - apply Ok_inj in H. now subst rows.
  - bind_inv H. apply Ok_inj in H. subst rows.
    cbn [List.length seq map]. f_equal.
    + exact (shared_experience_divider _ _ _ _ E).
    + now apply IH.
Qed.

Lemma dividers_but_last (n : nat) :
  map (fun k => (Z.of_nat k <? Z.of_nat (S n) - 1)%Z) (seq 0 (S n))
  = repeat true n ++ [false].
Proof.
  rewrite seq_S, map_app. cbn [map Nat.add]. f_equal.
  - rewrite <- (length_seq n 0) at 2. rewrite <- map_const.
    apply map_ext_in. intros k Hk. apply in_seq in Hk.
    apply Z.ltb_lt. lia.
  - f_equal. apply Z.ltb_ge. lia.
Qed.

(** X13 — The shared experience renderer puts a divider after every entry
    but the last; for an empty list it renders nothing at all. *)
Theorem _renderExp_dividers (items : list value) (primary border accent : value)
    (t : node) :
  _renderExp (VArr items) primary border accent = Ok t ->
  match items with
  | [] => t = NVal VNull
  | _ :: others =>
      exists heading rows,
        t = NEl "div" [heading; NArr rows]
        /\ map has_divider rows = repeat true (List.length others) ++ [false]
  end.
Proof.
  unfold _renderExp. intros H.
  change (prop (VArr items) "length")
    with (Ok (VNum (Z.of_nat (List.length items)))) in H.
  rewrite bind_Ok in H.
  destruct items as [|x others].
  - apply Ok_inj in H. now subst t.
  - change (negb (truthy (VNum (Z.of_nat (List.length (x :: others))))))
      with false in H.
    cbv iota in H. cbn [as_array] in H. rewrite bind_Ok in H.
    bind_inv H. apply Ok_inj in H. subst t.
    eexists. eexists. split; [reflexivity|].
    rewrite (mapMi_dividers _ _ _ _ E). apply dividers_but_last.
Qed.

(** Two positions, the first with an end date. *)
Lemma _renderExp_dividers_witness :
  exists heading rows,
    _renderExp (VArr [obj [("role", Str "Engineer"); ("endDate", Str "2021")];
                      obj [("role", Str "Lead"); ("current", VBool true)]]%string)
      (Str "#1a1a1a") (Str "rgba(26,26,26,0.3)") (Str "line")
    = Ok (NEl "div" [heading; NArr rows])
    /\ map has_divider rows = [true; false].
Proof.
  assert (H : exists t,
             _renderExp (VArr [obj [("role", Str "Engineer"); ("endDate", Str "2021")];
                               obj [("role", Str "Lead"); ("current", VBool true)]]%string)
               (Str "#1a1a1a") (Str "rgba(26,26,26,0.3)") (Str "line") = Ok t)
    by (eexists; vm_compute; reflexivity).
  destruct H as [t H].
  destruct (@_renderExp_dividers _ _ _ _ t H) as (heading & rows & -> & D).
  exists heading, rows. split; [exact H | exact D].
Defined.

(** * Description lines *)

Lemma split_lines_concat (d : jsstring) :
  List.concat (split_lines d) = without_newlines d.
Proof.
  induction d as [|c d IH]; [reflexivity|].
  cbn [split_lines without_newlines filter].
  destruct (c =? 10); cbn [negb].
  - exact IH.
  - unfold without_newlines in IH. rewrite <- IH.
    destruct (split_lines d); reflexivity.
Qed.

Lemma split_lines_no_newline (d : jsstring) :
  Forall (fun l => ~ In 10 l) (split_lines d).
Proof.
  induction d as [|c d IH]; cbn [split_lines].
  - constructor; [intros []|constructor].
  - destruct (N.eqb_spec c 10) as [->|Hc].
    + constructor; [intros []|exact IH].
    + destruct (split_lines d) as [|h t].
      * constructor; [|constructor]. intros [E|[]]. congruence.
      * inversion IH as [|? ? Hh Ht]; subst.
        constructor; [|exact Ht]. intros [E|I]; [congruence | contradiction].
Qed.

Lemma concat_nonempty (ls : list jsstring) :
  List.concat (filter (fun l => truthy (VStr l)) ls) = List.concat ls.
Proof.
  induction ls as [|l ls IH]; [reflexivity|].
  destruct l as [|c l].
  - exact IH.
  - change (List.concat (filter (fun l => truthy (VStr l)) ((c :: l) :: ls)))
      with ((c :: l) ++ List.concat (filter (fun l => truthy (VStr l)) ls)).
    now rewrite IH.
Qed.

(** X14 — The bullet rows of a description are made from its lines: none
    of them is empty or holds a line break, and together, in their order,
    they hold every other code unit of the description; nothing is lost and
    nothing is repeated. *)
Theorem bullet_lines_keep_text (d : jsstring) (row : jsstring -> node) :
  exists lines,
    bullet_lines (VStr d) row = Ok (NArr (map row lines))
    /\ List.concat lines = without_newlines d
    /\ Forall (fun l => l <> [] /\ ~ In 10 l) lines.
Proof.
  exists (filter (fun l => truthy (VStr l)) (split_lines d)).
  split; [reflexivity|]. split.
  - now rewrite concat_nonempty, split_lines_concat.
  - apply Forall_forall. intros l Hl. apply filter_In in Hl as [Hin Ht].
    split.
    + intros ->. discriminate Ht.
    + pose proof (split_lines_no_newline d) as F.
      rewrite Forall_forall in F. now apply F.
Qed.

(** * What the component reads of a document *)

Lemma or_else_default (a f d : value) :
  or_else (or_else a f) d = or_else (or_else a (or_else f d)) d.
Proof.
  unfold or_else. destruct (truthy a) eqn:Ta; rewrite ?Ta; [reflexivity|].
  destruct (truthy f) eqn:Tf; rewrite ?Tf; [reflexivity|].
  destruct (truthy d) eqn:Td; rewrite ?Td; reflexivity.
Qed.

Lemma or_else_chain_default (a b : value) :
  or_else (or_else a b) (VStr [])
  = or_else (or_else (or_else a (VStr [])) (or_else b (VStr []))) (VStr []).
Proof.
  unfold or_else. destruct (truthy a) eqn:Ta; rewrite ?Ta; [reflexivity|].
  cbn [truthy]. destruct (truthy b) eqn:Tb; rewrite ?Tb; reflexivity.
Qed.

Lemma resolvePhoto_default (env : option jsstring) (a f : value) :
  resolvePhoto env (or_else a f) = resolvePhoto env (or_else a (or_else f (VStr []))).
Proof.
  unfold or_else. destruct (truthy a); [reflexivity|].
  destruct (truthy f) eqn:Tf; [reflexivity|].
  unfold resolvePhoto. now rewrite Tf.
Qed.

Lemma flattenSkills_default (s : value) :
  flattenSkills s = flattenSkills (or_else s (VArr [])).
Proof.
  unfold or_else. destruct (truthy s) eqn:T; [reflexivity|].
  unfold flattenSkills. now rewrite T.
Qed.

Lemma getSkillCategories_default (s : value) :
  getSkillCategories s = getSkillCategories (or_else s (VArr [])).
Proof.
  unfold or_else. destruct (truthy s) eqn:T; [reflexivity|].
  unfold getSkillCategories. now rewrite T.
Qed.

Lemma bind_Throw {A B : Type} (e : exn) (f : A -> result B) :
  bind (Throw e) f = Throw e.
Proof. reflexivity. Qed.

Lemma bind_Unmodelled {A B : Type} (f : A -> result B) :
  bind Unmodelled f = Unmodelled.
Proof. reflexivity. Qed.

Ltac in_defaults :=
  unfold document_defaults; repeat (first [left; reflexivity | right]).

Section Reading.

Variable env : option jsstring.
Variables p1 p2 : list (jsstring * value).
Hypothesis same : same_reading (VObj p1) (VObj p2).

Lemma by_default (name : string) (d : value) :
  In (name, d) document_defaults ->
  or_else (field (VObj p1) name) d = or_else (field (VObj p2) name) d.
Proof. exact (proj1 same name d). Qed.

(** Both sides read a property of the document. *)
Ltac read_head :=
  match goal with
  | |- bind (prop (VObj p1) ?k) _ = bind (prop (VObj p2) ?k) _ =>
      rewrite (prop_obj p1 k), (prop_obj p2 k) by reflexivity
  | |- bind (or_prop ?a1 (VObj p1) ?k) _ = bind (or_prop ?a2 (VObj p2) ?k) _ =>
      rewrite (or_prop_obj a1 p1 k), (or_prop_obj a2 p2 k) by reflexivity
  end;
  rewrite !bind_Ok; cbv beta zeta.

(** Both sides run the same step. *)
Ltac same_read :=
  match goal with
  | |- bind ?r _ = bind ?r' _ =>
      constr_eq r r'; destruct r;
      [ rewrite !bind_Ok; cbv beta zeta
      | rewrite !bind_Throw; reflexivity
      | rewrite !bind_Unmodelled; reflexivity ]
  end.

(** The hypothesis, field by field. *)
Ltac fields :=
  pose proof (by_default "personal_info" (VObj []) ltac:(in_defaults)) as D_pi;
  pose proof (by_default "photo_path" (VStr []) ltac:(in_defaults)) as D_photo;
  pose proof (by_default "experiences" (VArr []) ltac:(in_defaults)) as D_exp;
  pose proof (by_default "educations" (VArr []) ltac:(in_defaults)) as D_edu;
  pose proof (by_default "skills" (VArr []) ltac:(in_defaults)) as D_skills;
  pose proof (by_default "certifications" (VArr []) ltac:(in_defaults)) as D_certs;
  pose proof (by_default "languages" (VArr []) ltac:(in_defaults)) as D_langs;
  pose proof (by_default "projects" (VArr []) ltac:(in_defaults)) as D_projects;
  pose proof (by_default "interests" (VArr []) ltac:(in_defaults)) as D_interests;
  pose proof (by_default "hobbies" (VStr []) ltac:(in_defaults)) as D_hobbies;
  pose proof (by_default "hobbies_text" (VStr []) ltac:(in_defaults)) as D_hobbies_text;
  pose proof (by_default "custom_sections" (VArr []) ltac:(in_defaults)) as D_custom;
  pose proof (by_default "profile_summary" (VStr []) ltac:(in_defaults)) as D_summary;
  pose proof (by_default "full_name" (VStr []) ltac:(in_defaults)) as D_name;
  pose proof (by_default "title" (VStr []) ltac:(in_defaults)) as D_title;
  pose proof (by_default "email" (VStr []) ltac:(in_defaults)) as D_email;
  pose proof (by_default "phone" (VStr []) ltac:(in_defaults)) as D_phone;
  pose proof (by_default "location" (VStr []) ltac:(in_defaults)) as D_location;
  pose proof (by_default "linkedin_url" (VStr []) ltac:(in_defaults)) as D_linkedin;
  pose proof (proj2 same) as D_alias.

Ltac alias name :=
  rewrite ?(or_else_default _ (field (VObj p1) name) (VStr [])),
          ?(or_else_default _ (field (VObj p2) name) (VStr [])).

Ltac normalise :=
  alias "profile_summary"%string; alias "full_name"%string;
  alias "title"%string; alias "email"%string; alias "phone"%string;
  alias "location"%string; alias "linkedin_url"%string;
  rewrite ?(resolvePhoto_default env _ (field (VObj p1) "photo_path")),
          ?(resolvePhoto_default env _ (field (VObj p2) "photo_path"));
  rewrite ?(flattenSkills_default (field (VObj p1) "skills")),
          ?(flattenSkills_default (field (VObj p2) "skills")),
          ?(getSkillCategories_default (field (VObj p1) "skills")),
          ?(getSkillCategories_default (field (VObj p2) "skills"));
  rewrite ?(or_else_chain_default (field (VObj p1) "hobbies")
                                  (field (VObj p1) "hobbies_text")),
          ?(or_else_chain_default (field (VObj p2) "hobbies")
                                  (field (VObj p2) "hobbies_text"));
  repeat match goal with
         | D : or_else _ _ = or_else _ _ |- _ => progress rewrite D
         end.

Ltac step := first [read_head | same_read | normalise; same_read].

Lemma german_sample_same : german_sample (VObj p1) = german_sample (VObj p2).
Proof.
  fields. unfold german_sample. repeat step. normalise. reflexivity.
Qed.

Lemma detectGerman_same : detectGerman (VObj p1) = detectGerman (VObj p2).
Proof. unfold detectGerman. now rewrite german_sample_same. Qed.

Lemma compute_locals_same (theme : value) :
  compute_locals env (VObj p1) theme = compute_locals env (VObj p2) theme.
Proof.
  fields. unfold compute_locals. rewrite detectGerman_same.
  repeat step. normalise. reflexivity.
Qed.

Lemma CVPreview_same (themeProp : value) :
  CVPreview env (VObj p1) themeProp = CVPreview env (VObj p2) themeProp.
Proof. unfold CVPreview. now rewrite compute_locals_same. Qed.

End Reading.

Lemma field_skip (k : jsstring) (v : value) (props : list (jsstring * value))
    (name : string) :
  str_eqb (js name) k = false ->
  field (VObj ((k, v) :: props)) name = field (VObj props) name.
Proof. intros H. unfold field. cbn [lookup]. now rewrite H. Qed.

Lemma unread_spec (k : jsstring) (name : string) :
  unread k = true -> In name document_fields -> str_eqb (js name) k = false.
Proof.
  unfold unread. intros H I. rewrite forallb_forall in H.
  apply negb_true_iff. now apply H.
Qed.

Ltac in_fields :=
  unfold document_fields; repeat (first [left; reflexivity | right]).

(** Split a membership in a list written out into its cases. *)
Ltac default_cases H :=
  unfold document_defaults in H; cbn [In] in H;
  repeat (destruct H as [H|H];
          [apply pair_equal_spec in H as [<- <-]|]);
  [..|contradiction].

(** X15 — A property the component does not read makes no difference:
    adding one to a document, under a name that is none of the twenty
    top-level names the component asks for, leaves the render as it was,
    whatever the layout. *)
Theorem CVPreview_ignores_unread_fields (env : option jsstring) (k : jsstring)
    (v : value) (props : list (jsstring * value)) (themeProp : value) :
  unread k = true ->
  CVPreview env (VObj ((k, v) :: props)) themeProp
  = CVPreview env (VObj props) themeProp.
Proof.
  intros U. apply CVPreview_same. split.
  - intros name d H.
    default_cases H;
      (rewrite field_skip; [reflexivity | apply (unread_spec _ _ U); in_fields]).
  - rewrite !field_skip by (apply (unread_spec _ _ U); in_fields).
    reflexivity.
Qed.

(** The identifier a stored document carries. *)
Lemma CVPreview_ignores_unread_fields_witness :
  CVPreview None (VObj ((js "id", VNum 7) :: own_props german_cv))
    (theme_of "modern")
  = CVPreview None german_cv (theme_of "modern").
Proof.
  exact (@CVPreview_ignores_unread_fields None (js "id") (VNum 7)
           (own_props german_cv) (theme_of "modern") eq_refl).
Defined.

(** * The preview document of the customize page *)

Lemma or_else_idem (x d : value) : or_else (or_else x d) d = or_else x d.
Proof.
  unfold or_else. destruct (truthy x) eqn:T; rewrite ?T; [reflexivity|].
  now destruct (truthy d).
Qed.

Lemma lookup_without (names : list string) (k : jsstring)
    (props : list (jsstring * value)) :
  lookup k (without_fields names props)
  = if existsb (fun name => str_eqb (js name) k) names then None
    else lookup k props.
Proof.
  induction props as [|[k' x] props IH]; cbn [without_fields filter lookup fst].
  - now destruct (existsb _ names).
  - fold (without_fields names props).
    destruct (str_eqb k k') eqn:E.
    + apply str_eqb_eq in E. subst k'.
      destruct (existsb (fun name => str_eqb (js name) k) names) eqn:D;
        cbn [negb].
      * rewrite IH. rewrite ?D. reflexivity.
      * cbn [lookup].
        assert (R : str_eqb k k = true) by now apply str_eqb_eq.
        now rewrite R.
    + destruct (existsb (fun name => str_eqb (js name) k') names); cbn [negb].
      * exact IH.
      * cbn [lookup]. rewrite E. exact IH.
Qed.

Lemma field_without (names : list string) (props : list (jsstring * value))
    (name : string) :
  field (VObj (without_fields names props)) name
  = if existsb (fun n => str_eqb (js n) (js name)) names then VUndef
    else field (VObj props) name.
Proof.
  unfold field. rewrite lookup_without.
  now destruct (existsb _ names).
Qed.

Lemma buildPreviewData_object (props : list (jsstring * value)) :
  let raw := VObj props in
  buildPreviewData raw
  = Ok (obj [ ("personal_info", or_else (field raw "personal_info") (VObj []));
              ("experiences", or_else (field raw "experiences") (VArr []));
              ("projects", or_else (field raw "projects") (VArr []));
              ("skills", or_else (field raw "skills") (VArr []));
              ("educations", or_else (field raw "educations") (VArr []));
              ("languages", or_else (field raw "languages") (VArr []));
              ("certifications", or_else (field raw "certifications") (VArr []));
              ("interests", or_else (field raw "interests") (VArr []));
              ("full_name", or_else (field raw "full_name") (VStr []));
              ("title", or_else (field raw "title") (VStr []));
              ("email", or_else (field raw "email") (VStr []));
              ("phone", or_else (field raw "phone") (VStr []));
              ("location", or_else (field raw "location") (VStr []));
              ("linkedin_url", or_else (field raw "linkedin_url") (VStr []));
              ("profile_summary", or_else (field raw "profile_summary") (VStr []));
              ("photo_path", or_else (field raw "photo_path") (VStr [])) ]%string).
Proof.
  intros raw. unfold raw, buildPreviewData.
  repeat (rewrite prop_obj by reflexivity; rewrite bind_Ok).
  reflexivity.
Qed.

(** X16 — The document the customize page hands to the preview renders
    as the loaded document does without the four fields the page does not
    copy (custom sections, hobbies and the [experience] alias): the
    defaults the page fills in change nothing, and custom sections and
    hobbies never reach that preview. *)
Theorem buildPreviewData_preview (env : option jsstring)
    (props : list (jsstring * value)) (themeProp : value) :
  exists b,
    buildPreviewData (VObj props) = Ok b
    /\ CVPreview env b themeProp
       = CVPreview env (VObj (without_fields preview_drops props)) themeProp.
Proof.
  eexists. split; [apply buildPreviewData_object|].
  unfold obj. cbn [map fst snd].
  apply CVPreview_same. split.
  - intros name d H.
    default_cases H;
      rewrite field_without;
      match goal with
      | |- or_else (field ?b ?k) ?d = or_else ?r ?d =>
          first [ change (field b k) with (or_else (field (VObj props) k) d);
                  change r with (field (VObj props) k);
                  apply or_else_idem
                | change (field b k) with VUndef; change r with VUndef;
                  reflexivity ]
      end.
  - rewrite !field_without.
    match goal with
    | |- or_else (or_else (field ?b "experiences") (field ?b "experience")) _ = _ =>
        change (field b "experiences")
          with (or_else (field (VObj props) "experiences") (VArr []));
        change (field b "experience") with VUndef
    end.
    cbn [preview_drops existsb].
    change (str_eqb (js "experience") (js "experiences")) with false.
    change (str_eqb (js "hobbies") (js "experiences")) with false.
    change (str_eqb (js "hobbies_text") (js "experiences")) with false.
    change (str_eqb (js "custom_sections") (js "experiences")) with false.
    change (str_eqb (js "experience") (js "experience")) with true.
    cbn [orb]. unfold or_else.
    destruct (truthy (field (VObj props) "experiences")) eqn:T; rewrite ?T;
      reflexivity.
Qed.

(** * The profile image *)




(** * The date range of an education entry *)

(** X18 — The date range of an education entry whose dates are strings
    is the start date, then the end date, with " – " between them exactly
    when neither is empty; an entry has no current position, and a lone
    date stands without separator. *)
Theorem edu_dates_text (props : list (jsstring * value)) (sd ed : jsstring) :
  field (VObj props) "startDate" = VStr sd ->
  field (VObj props) "endDate" = VStr ed ->
  exists cell,
    edu_dates (VObj props) = Ok cell
    /\ text_of (NEl "span" cell)
       = Ok (sd ++ (if truthy (VStr sd) && truthy (VStr ed) then js " – " else [])
                ++ ed).
Proof.
  intros Hs He. unfold edu_dates.
  rewrite (prop_obj props "startDate" eq_refl), bind_Ok.
  rewrite (prop_obj props "endDate" eq_refl), bind_Ok.
  rewrite Hs, He. eexists. split; [reflexivity|].
  destruct sd as [|s0 sd], ed as [|e0 ed]; cbn; rewrite ?app_nil_r; reflexivity.
Qed.

Lemma edu_dates_text_witness :
  exists cell,
    edu_dates (obj [("degree", Str "BSc"); ("startDate", VStr []);
                    ("endDate", Str "2019")]%string) = Ok cell
    /\ text_of (NEl "span" cell) = Ok (js "2019").
Proof.
  exact (@edu_dates_text
           (own_props (obj [("degree", Str "BSc"); ("startDate", VStr []);
                            ("endDate", Str "2019")]%string))
           [] (js "2019") eq_refl eq_refl).
Defined.

(** * The API origin *)

Lemma startsWith_nil (s : jsstring) : startsWith s [] = true.
Proof. now destruct s. Qed.

Lemma startsWith_api_overlap (o : jsstring) :
  startsWith (o ++ js "/api") (js "/api") = true ->
  o = [] \/ startsWith o (js "/api") = true.
Proof.
  change (js "/api") with [47; 97; 112; 105]. intros H.
  destruct o as [|c1 o]; [now left|]. right.
  destruct o as [|c2 o]; [|destruct o as [|c3 o]; [|destruct o as [|c4 o]]];
    cbn [app startsWith] in H |- *.
  - destruct (47 =? c1); cbn in H |- *; congruence.
  - destruct (47 =? c1); cbn [andb] in H |- *; [|congruence].
    destruct (97 =? c2); cbn in H |- *; congruence.
  - destruct (47 =? c1); cbn [andb] in H |- *; [|congruence].
    destruct (97 =? c2); cbn [andb] in H |- *; [|congruence].
    destruct (112 =? c3); cbn in H |- *; congruence.
  - rewrite startsWith_nil in H |- *. exact H.
Qed.

Lemma replace_first_api_suffix (o : jsstring) :
  includes o (js "/api") = false ->
  replace_first (js "/api") [] (o ++ js "/api") = o.
Proof.
  induction o as [|c o IH]; intros H; [reflexivity|].
  cbn [includes] in H. apply orb_false_elim in H as [H1 H2].
  cbn [app replace_first].
  destruct (startsWith (c :: o ++ js "/api") (js "/api")) eqn:S.
  - apply (startsWith_api_overlap (c :: o)) in S as [S|S]; [discriminate S|].
    rewrite S in H1. discriminate H1.
  - now rewrite IH.
Qed.

(** X19 — The API origin is never the empty string, and for a configured
    URL that is an origin followed by "/api", where the origin itself does
    not contain "/api", it is that origin. *)
Theorem API_BASE_strips_suffix (origin : jsstring) :
  includes origin (js "/api") = false ->
  (forall env, API_BASE env <> [])
  /\ API_BASE (Some (origin ++ js "/api"))
     = match origin with [] => js "http://localhost:8000" | _ => origin end.
Proof.
  intros H. split.
  - intros env. unfold API_BASE. destruct env as [url|]; [|discriminate].
    destruct (replace_first (js "/api") [] url); discriminate.
  - unfold API_BASE. rewrite (replace_first_api_suffix origin H).
    now destruct origin.
Qed.

Lemma API_BASE_strips_suffix_witness :
  let origin := js "https://cv.example.com" in
  API_BASE (Some (origin ++ js "/api"))
  = match origin with [] => js "http://localhost:8000" | _ => origin end.
Proof.
  intros origin.
  assert (H : includes origin (js "/api") = false) by (vm_compute; reflexivity).
  exact (proj2 (API_BASE_strips_suffix origin H)).
Defined.
